(** * Loss-aversion lottery experiment (streamlit_app.py)

    A shallow embedding of the logical core of [streamlit_app.py]: the
    gamble generator, the flag classifier, the difficulty adapter and the
    session bookkeeping that drives them, followed by the properties the
    specification states about them.

    Conventions.
    - Python [int] is [Z]; Python [float] is an IEEE-754 binary64 value,
      modelled with the kernel's executable specification [spec_float]
      ([prec = 53], [emax = 1024]), so every float operation below is the
      correctly rounded one.
    - Exceptions are explicit: a computation that may raise returns a
      [result].
    - [random.Random] is an interface ([PyRandom]); the generator state is
      threaded through the draws.
    - Values the program reads from its environment (the clock, the OS
      entropy behind [uuid.uuid4()], an unseeded [random.Random()]) are
      inputs of the model, collected in [Env]. *)

From Stdlib Require Import ZArith QArith List String Ascii Bool Lia.
From Stdlib Require Import SpecFloat.
Import ListNotations.

Local Open Scope string_scope.
Local Open Scope Z_scope.

(** ** Exceptions *)

Inductive exn : Set :=
| IndexError
| ZeroDivisionError
| ValueError
| OverflowError.

Inductive result (A : Type) : Type :=
| Ok (a : A)
| Raise (e : exn).

Arguments Ok {A} a.
Arguments Raise {A} e.

Definition rbind {A B : Type} (m : result A) (k : A -> result B) : result B :=
  match m with
  | Ok a => k a
  | Raise e => Raise e
  end.

Notation "x <- m ;; k" := (rbind m (fun x => k))
  (at level 61, m at next level, right associativity).
Notation "' p <- m ;; k" := (rbind m (fun x => match x with p => k end))
  (at level 61, p pattern, m at next level, right associativity).

(** ** Binary64 floats *)

Module PyFloat.

Definition float : Set := spec_float.

Definition prec : Z := 53.
Definition emax : Z := 1024.

Definition fmul : float -> float -> float := SFmul prec emax.
Definition fsub : float -> float -> float := SFsub prec emax.
Definition fdiv : float -> float -> float := SFdiv prec emax.

(** [a <= b] and [a >= b] on floats; both are false on a NaN. *)
Definition fle (a b : float) : bool := SFleb a b.
Definition fge (a b : float) : bool := SFleb b a.
Definition flt (a b : float) : bool := SFltb a b.

(** [float(z)] for an [int] [z]: the nearest double, ties to even. *)
Definition float_of_Z (z : Z) : float := binary_normalize prec emax z 0 false.

(** Float literals of the source, as the parser reads them (the double
    nearest to the decimal). *)
Definition f0_5 : float := S754_finite false 4503599627370496 (-53).
Definition f2_0 : float := S754_finite false 4503599627370496 (-51).
Definition fneg2_0 : float := S754_finite true 4503599627370496 (-51).
Definition f0_6 : float := S754_finite false 5404319552844595 (-53).
Definition f0_2 : float := S754_finite false 7205759403792794 (-55).
Definition f0_0 : float := S754_zero false.

(** [a / b] on two [int]s.  CPython converts both operands to doubles and
    divides them when both fit in 53 bits; above that it rounds the exact
    quotient once.  The model is the first path, which is the one every
    list the interpreter can hold takes. *)
Definition int_true_div (a b : Z) : result float :=
  if b =? 0 then Raise ZeroDivisionError
  else Ok (fdiv (float_of_Z a) (float_of_Z b)).

(** The exact rational value of a float; [None] on infinities and NaN. *)
Definition to_Q (x : float) : option Q :=
  match x with
  | S754_zero _ => Some 0%Q
  | S754_finite s m e =>
      Some (inject_Z (if s then Z.neg m else Z.pos m) * Qpower 2 e)%Q
  | _ => None
  end.

End PyFloat.
Import PyFloat.

(** ** Lottery model *)

Record MixedGamble : Set := mkGamble {
  p_win : float;
  win : float;
  p_lose : float;
  lose : float;
  gamble_id : string
}.

(** [MixedGamble.ev] *)
Definition ev (g : MixedGamble) : float :=
  fsub (fmul (p_win g) (win g)) (fmul (p_lose g) (lose g)).

(** ** The randomness source

    [random.Random]: [Random seed] builds a generator from an [int] seed,
    [randbelow n] is [_randbelow(n)], which returns an index below [n] and
    advances the generator. *)

Class PyRandom (G : Type) : Type := {
  Random : Z -> G;
  randbelow : Z -> G -> Z * G;
  randbelow_range : forall n g, 0 < n -> 0 <= fst (randbelow n g) < n
}.

Section Generator.

Context {G : Type} `{PyRandom G}.

(** A computation that draws from the generator and may raise. *)
Definition Rand (A : Type) : Type := G -> result (A * G).

Definition rret {A : Type} (a : A) : Rand A := fun g => Ok (a, g).

Definition rand_bind {A B : Type} (m : Rand A) (k : A -> Rand B) : Rand B :=
  fun g =>
    match m g with
    | Ok (a, g') => k a g'
    | Raise e => Raise e
    end.

(** [rng.choice(seq)] *)
Definition choice {A : Type} (seq : list A) : Rand A :=
  fun g =>
    match seq with
    | [] => Raise IndexError
    | _ :: _ =>
        let (i, g') := randbelow (Z.of_nat (List.length seq)) g in
        match nth_error seq (Z.to_nat i) with
        | Some x => Ok (x, g')
        | None => Raise IndexError
        end
    end.

(** [str(uuid.uuid4())[:8]], given the string [str(uuid.uuid4())]. *)
Definition short_id (uuid4 : string) : string := substring 0 8 uuid4.

(** The candidate amounts of the three difficulty buckets. *)
Definition wins0 : list Z := [6; 8; 10; 12; 14; 16].
Definition loses0 : list Z := [4; 6; 8; 10; 12].
Definition wins1 : list Z := [10; 12; 14; 16; 18; 20; 22].
Definition loses1 : list Z := [8; 10; 12; 14; 16; 18].
Definition wins2 : list Z := [16; 18; 20; 22; 24; 26; 28; 30].
Definition loses2 : list Z := [12; 14; 16; 18; 20; 22; 24].

Definition sample_mixed_gamble (difficulty : Z) (uuid4 : string)
  : Rand MixedGamble :=
  let p := f0_5 in
  rand_bind
    (if difficulty <=? 0 then
       rand_bind (choice wins0) (fun w =>
       rand_bind (choice loses0) (fun l => rret (w, l)))
     else if difficulty =? 1 then
       rand_bind (choice wins1) (fun w =>
       rand_bind (choice loses1) (fun l => rret (w, l)))
     else
       rand_bind (choice wins2) (fun w =>
       rand_bind (choice loses2) (fun l => rret (w, l))))
    (fun wl =>
       let w := float_of_Z (fst wl) in
       let l := float_of_Z (snd wl) in
       rret (mkGamble p w p l (short_id uuid4))).

End Generator.

(** ** Rules / training logic *)

Definition simple_loss_aversion_flag (gamble : MixedGamble) (decision : string)
  : string :=
  let e := ev gamble in
  if fge e f2_0 && (decision =? "reject")%string then "loss_aversion_possible"
  else if fle e fneg2_0 && (decision =? "accept")%string then "risk_seeking_or_noise"
  else "none".

(** [sum(1 for f in recent_flags if f == "loss_aversion_possible")] *)
Definition count_la (recent_flags : list string) : Z :=
  Z.of_nat (List.length (filter (fun f => (f =? "loss_aversion_possible")%string) recent_flags)).

Definition adapt_difficulty (current : Z) (recent_flags : list string)
  : result Z :=
  match recent_flags with
  | [] => Ok current
  | _ :: _ =>
      let la := count_la recent_flags in
      let n := Z.of_nat (List.length recent_flags) in
      q1 <- int_true_div la n ;;
      if fge q1 f0_6 then Ok (Z.max 0 (current - 1))
      else
        q2 <- int_true_div la n ;;
        if fle q2 f0_2 then Ok (Z.min 2 (current + 1))
        else Ok current
  end.

(** ** Session state

    [st.session_state] as a record.  Not modelled: the reflection text, the
    feedback text, the wall-clock timestamp and the response latency (state
    keys [reflection] and [trial_started_at], log columns [timestamp],
    [feedback], [reflection] and [rt_seconds]); nothing below reads them. *)

Inductive Phase : Set := consent | pre | train | post | done.

Definition Phase_eqb (a b : Phase) : bool :=
  match a, b with
  | consent, consent | pre, pre | train, train | post, post | done, done => true
  | _, _ => false
  end.

Definition N_PRE : Z := 40.
Definition N_TRAIN : Z := 25.
Definition N_POST : Z := 40.

Record LogRow : Set := mkRow {
  row_participant_id : string;
  row_phase : Phase;
  row_trial_in_phase : Z;
  row_gamble_id : string;
  row_p_win : float;
  row_win : float;
  row_p_lose : float;
  row_lose : float;
  row_ev : float;
  row_decision : string;
  row_flag : string;
  row_difficulty : Z
}.

Record SessionState : Set := mkState {
  participant_id : string;
  phase : Phase;
  trial_index : Z;
  difficulty : Z;
  current_gamble : MixedGamble;
  rng_seed : Z;
  logs : list LogRow;
  last_flags : list string
}.

Definition set_phase (p : Phase) (s : SessionState) : SessionState :=
  mkState (participant_id s) p (trial_index s) (difficulty s)
          (current_gamble s) (rng_seed s) (logs s) (last_flags s).

Definition set_trial_index (i : Z) (s : SessionState) : SessionState :=
  mkState (participant_id s) (phase s) i (difficulty s)
          (current_gamble s) (rng_seed s) (logs s) (last_flags s).

Definition set_difficulty (d : Z) (s : SessionState) : SessionState :=
  mkState (participant_id s) (phase s) (trial_index s) d
          (current_gamble s) (rng_seed s) (logs s) (last_flags s).

Definition set_current_gamble (g : MixedGamble) (s : SessionState) : SessionState :=
  mkState (participant_id s) (phase s) (trial_index s) (difficulty s)
          g (rng_seed s) (logs s) (last_flags s).

Definition set_logs (l : list LogRow) (s : SessionState) : SessionState :=
  mkState (participant_id s) (phase s) (trial_index s) (difficulty s)
          (current_gamble s) (rng_seed s) l (last_flags s).

Definition set_last_flags (f : list string) (s : SessionState) : SessionState :=
  mkState (participant_id s) (phase s) (trial_index s) (difficulty s)
          (current_gamble s) (rng_seed s) (logs s) f.

Definition phase_total_trials (p : Phase) : Z :=
  match p with
  | pre => N_PRE
  | train => N_TRAIN
  | post => N_POST
  | _ => 0
  end.

(** [phase in ("pre", "train", "post")] *)
Definition is_trial_phase (p : Phase) : bool :=
  match p with
  | pre | train | post => true
  | _ => false
  end.

(** [l[-k:]] for a positive [k] *)
Definition last_n {A : Type} (k : nat) (l : list A) : list A :=
  skipn (List.length l - k) l.

(** [int(x)] on a float: truncation toward zero. *)
Definition int_of_float (x : float) : result Z :=
  match x with
  | S754_zero _ => Ok 0
  | S754_finite s m e =>
      let a := Z.shiftl (Z.pos m) e in
      Ok (if s then - a else a)
  | S754_infinity _ => Raise OverflowError
  | S754_nan => Raise ValueError
  end.

(** What one run of the script reads from outside the session state. *)
Record Env (G : Type) : Type := mkEnv {
  env_time : float;              (* time.time() *)
  env_uuid_participant : string; (* str(uuid.uuid4()) for the participant id *)
  env_uuid_gamble : string;      (* str(uuid.uuid4()) for the gamble id *)
  env_unseeded : G               (* random.Random() *)
}.

Arguments mkEnv {G} _ _ _ _.
Arguments env_time {G} _.
Arguments env_uuid_participant {G} _.
Arguments env_uuid_gamble {G} _.
Arguments env_unseeded {G} _.

(** The buttons of the page. *)
Inductive Event : Set := ClickStart | ClickAccept | ClickReject | ClickRestart.

Section Session.

Context {G : Type} `{PyRandom G}.

(** [init_state()] on an empty [st.session_state]. *)
Definition init_state (env : Env G) : result SessionState :=
  let pid := short_id (env_uuid_participant env) in
  let ph := consent in
  let idx := 0 in
  let d := 0 in
  ' (g, _) <- sample_mixed_gamble d (env_uuid_gamble env) (env_unseeded env) ;;
  seed <- int_of_float (env_time env) ;;
  Ok (mkState pid ph idx d g seed [] []).

Definition rng (s : SessionState) : G :=
  Random (rng_seed s + trial_index s).

Definition next_phase (p : Phase) : Phase :=
  match p with
  | pre => train
  | train => post
  | post => done
  | other => other
  end.

Definition advance_trial (env : Env G) (s : SessionState)
  : result SessionState :=
  let s := set_trial_index (trial_index s + 1) s in
  let total := phase_total_trials (phase s) in
  let s :=
    if total <=? trial_index s then
      let s := set_phase (next_phase (phase s)) s in
      let s := set_trial_index 0 s in
      let s := set_difficulty 0 s in
      set_last_flags [] s
    else s in
  if is_trial_phase (phase s) then
    ' (g, _) <- sample_mixed_gamble (difficulty s) (env_uuid_gamble env) (rng s) ;;
    Ok (set_current_gamble g s)
  else Ok s.

Definition log_decision (decision flag : string) (s : SessionState)
  : SessionState :=
  let g := current_gamble s in
  let row :=
    mkRow (participant_id s) (phase s) (trial_index s) (gamble_id g)
          (p_win g) (win g) (p_lose g) (lose g) (ev g)
          decision flag (difficulty s) in
  set_logs (logs s ++ [row]) s.

(** [handle(decision)]; [phase] and [g] are the script's locals, read from
    the session state at the top of the run. *)
Definition handle (env : Env G) (decision : string) (s : SessionState)
  : result SessionState :=
  let ph := phase s in
  let g := current_gamble s in
  let flag := simple_loss_aversion_flag g decision in
  s <- (if Phase_eqb ph train then
          let s := set_last_flags (last_n 10 (last_flags s ++ [flag])) s in
          d <- adapt_difficulty (difficulty s) (last_flags s) ;;
          Ok (set_difficulty d s)
        else Ok s) ;;
  let s := log_decision decision flag s in
  advance_trial env s.

(** The consent page's [Start] button (enabled once the box is ticked). *)
Definition start_session (env : Env G) (s : SessionState)
  : result SessionState :=
  let s := set_phase pre s in
  let s := set_trial_index 0 s in
  let s := set_difficulty 0 s in
  let s := set_last_flags [] s in
  ' (g, _) <- sample_mixed_gamble (difficulty s) (env_uuid_gamble env) (rng s) ;;
  Ok (set_current_gamble g s).

(** One run of the script on a click.  A button that the page of the
    current phase does not show cannot be clicked: the state stays as it
    is.  [Restart] deletes every key, and the rerun initialises afresh. *)
Definition on_event (env : Env G) (e : Event) (s : SessionState)
  : result SessionState :=
  match phase s, e with
  | consent, ClickStart => start_session env s
  | (pre | train | post), ClickAccept => handle env "accept" s
  | (pre | train | post), ClickReject => handle env "reject" s
  | done, ClickRestart => init_state env
  | _, _ => Ok s
  end.

Fixpoint run_events (evs : list (Env G * Event)) (s : SessionState)
  : result SessionState :=
  match evs with
  | [] => Ok s
  | (env, e) :: rest => s' <- on_event env e s ;; run_events rest s'
  end.

(** The states a session can be in. *)
Inductive reachable : SessionState -> Prop :=
| reach_init env s :
    init_state env = Ok s -> reachable s
| reach_step env e s s' :
    reachable s -> on_event env e s = Ok s' -> reachable s'.

End Session.

(** ** A concrete randomness source

    A linear congruential generator: an instance of the interface on which
    the model can be run. *)

Definition lcg_next (g : Z) : Z :=
  (g * 6364136223846793005 + 1442695040888963407) mod 2 ^ 64.

Definition lcg_randbelow (n : Z) (g : Z) : Z * Z :=
  ((lcg_next g / 2 ^ 33) mod n, lcg_next g).

#[export] Instance lcg_random : PyRandom Z := {
  Random := fun seed => seed mod 2 ^ 64;
  randbelow := lcg_randbelow;
  randbelow_range := fun n g Hn => Z.mod_pos_bound (lcg_next g / 2 ^ 33) n Hn
}.

(** ** Helper definitions used in the statements *)

(** [has_value x q]: the float [x] is finite and its exact value is [q]. *)
Definition has_value (x : float) (q : Q) : Prop :=
  match to_Q x with
  | Some v => (v == q)%Q
  | None => False
  end.

(** The bucket a difficulty falls in. *)
Definition tier_wins (d : Z) : list Z :=
  if d <=? 0 then wins0 else if d =? 1 then wins1 else wins2.

Definition tier_loses (d : Z) : list Z :=
  if d <=? 0 then loses0 else if d =? 1 then loses1 else loses2.


(** Every amount any bucket can yield. *)
Definition amounts : list Z := [4; 6; 8; 10; 12; 14; 16; 18; 20; 22; 24; 26; 28; 30].

(** A float with mantissa [m] and exponent [e], renormalised when rounding
    carried the mantissa up to [2^53]. *)
Definition pack (m e : Z) : float :=
  if m <? 2 ^ 53 then S754_finite false (Z.to_pos m) e
  else S754_finite false (Z.to_pos (2 ^ 52)) (e + 1).

(** [m] is one of the two integers next to [N / D], and is on the side the
    remainder allows: up only from the upper half, down only from the lower
    half. *)
Definition rounds (N D m : Z) : Prop :=
  exists q r,
    N = q * D + r /\ 0 <= r < D /\ q <= m <= q + 1
    /\ (m = q + 1 -> D <= 2 * r) /\ (m = q -> 2 * r <= D).

(** The fraction of the entries of [recent_flags] that are
    [loss_aversion_possible], as an exact rational. *)
Definition la_fraction (recent_flags : list string) : Q :=
  (inject_Z (count_la recent_flags)
   / inject_Z (Z.of_nat (List.length recent_flags)))%Q.

(** The decision a button stands for. *)
Definition is_decision (e : Event) : bool :=
  match e with
  | ClickAccept | ClickReject => true
  | _ => false
  end.

Definition decision_label (e : Event) : string :=
  match e with
  | ClickAccept => "accept"
  | ClickReject => "reject"
  | _ => ""
  end.

(** Where a session stands after [k] completed trials: the phase and the
    trial index within it. *)
Definition position (k : Z) : Phase * Z :=
  if k <? 40 then (pre, k)
  else if k <? 65 then (train, k - 40)
  else if k <? 105 then (post, k - 65)
  else (done, 0).

(** [j; j + 1; ...; j + k - 1] *)
Definition upto_from (j : Z) (k : nat) : list Z :=
  map (fun i => j + Z.of_nat i) (seq 0 k).

(** ** Concrete inputs

    Two environments that differ only in the [uuid4] the gamble identifier
    is cut from, an initial session, and runs of the model on them with the
    linear congruential generator. *)

Definition env_a : Env Z :=
  mkEnv (float_of_Z 1700000000)
        "0f8fad5b-d9cb-469f-a165-70867728950e"
        "7c9e6679-7425-40de-944b-e07fc1f90ae7"
        12345.

Definition env_b : Env Z :=
  mkEnv (float_of_Z 1700000000)
        "0f8fad5b-d9cb-469f-a165-70867728950e"
        "16fd2706-8baf-433b-82eb-8c7fada847da"
        12345.

Definition session_initial : SessionState :=
  mkState "0f8fad5b" consent 0 0
          (mkGamble f0_5 (float_of_Z 14) f0_5 (float_of_Z 10) "7c9e6679")
          1700000000 [] [].

Definition or_initial (r : result SessionState) : SessionState :=
  match r with
  | Ok s => s
  | Raise _ => session_initial
  end.

(** The session once [Start] has been clicked. *)
Definition session_started : SessionState :=
  Eval vm_compute in or_initial (on_event env_a ClickStart session_initial).

(** The session at the first training trial, after 40 accepted pre-test
    gambles. *)
Definition session_train0 : SessionState :=
  Eval vm_compute in
    or_initial (run_events (repeat (env_a, ClickAccept) 40) session_started).

(** 105 clicks on [Accept]. *)
Definition accept_clicks : list (Env Z * Event) := repeat (env_a, ClickAccept) 105.

(** Six [loss_aversion_possible] flags followed by four [none]. *)
Definition flags_6_of_10 : list string :=
  (repeat "loss_aversion_possible" 6 ++ repeat "none" 4)%list.

(** Unfolds the record updates of a session state. *)
Ltac state_simpl :=
  cbn [set_phase set_trial_index set_difficulty set_current_gamble set_logs
       set_last_flags participant_id phase trial_index difficulty
       current_gamble rng_seed logs last_flags rbind
       row_phase row_trial_in_phase row_decision row_flag row_gamble_id
       row_difficulty] in *.

(** ** Helper definitions for the session invariants *)

(** The number of trials a session has completed since it was initialised. *)
Definition completed (s : SessionState) : Z :=
  match phase s with
  | consent => 0
  | pre => trial_index s
  | train => 40 + trial_index s
  | post => 65 + trial_index s
  | done => 105
  end.

(** The gamble snapshot a log row carries. *)
Definition row_gamble (r : LogRow) : MixedGamble :=
  mkGamble (row_p_win r) (row_win r) (row_p_lose r) (row_lose r) (row_gamble_id r).


Section Invariant.

Context {G : Type} `{PyRandom G}.

(** [gam] is what [sample_mixed_gamble] returns at tier [d] from the
    generator seeded with [seed + idx], for some [uuid4]. *)
Definition drawn_at (seed idx d : Z) (gam : MixedGamble) : Prop :=
  exists (uuid4 : string) (g1 : G),
    sample_mixed_gamble d uuid4 (Random (seed + idx)) = Ok (gam, g1).

(** What holds of every row of the log of session [s]. *)
Definition row_ok (s : SessionState) (r : LogRow) : Prop :=
  row_participant_id r = participant_id s
  /\ (row_decision r = "accept" \/ row_decision r = "reject")
  /\ row_flag r = simple_loss_aversion_flag (row_gamble r) (row_decision r)
  /\ row_ev r = ev (row_gamble r)
  /\ 0 <= row_difficulty r <= 2
  /\ (row_phase r <> train -> row_difficulty r = 0)
  /\ exists d : Z,
      0 <= d <= 2 /\ (row_phase r <> train -> d = 0)
      /\ drawn_at (rng_seed s) (row_trial_in_phase r) d (row_gamble r).

(** The invariant of the session state. *)
Definition session_ok (s : SessionState) : Prop :=
  0 <= difficulty s <= 2
  /\ (phase s <> train -> difficulty s = 0 /\ last_flags s = [])
  /\ (List.length (last_flags s) <= 10)%nat
  /\ (if is_trial_phase (phase s)
      then 0 <= trial_index s < phase_total_trials (phase s)
      else trial_index s = 0)
  /\ (is_trial_phase (phase s) = true ->
      drawn_at (rng_seed s) (trial_index s) (difficulty s) (current_gamble s))
  /\ map (fun r => (row_phase r, row_trial_in_phase r)) (logs s)
     = map position (upto_from 0 (Z.to_nat (completed s)))
  /\ Forall (row_ok s) (logs s).

End Invariant.

(** The session after the 105 clicks of [accept_clicks]. *)
Definition session_finished : SessionState :=
  Eval vm_compute in or_initial (run_events accept_clicks session_started).

(** An environment whose clock reading is not a number. *)
Definition env_nan : Env Z :=
  mkEnv S754_nan
        "0f8fad5b-d9cb-469f-a165-70867728950e"
        "7c9e6679-7425-40de-944b-e07fc1f90ae7"
        12345.

(** The session at the last training trial, after 24 accepted training
    gambles. *)
Definition session_train_last : SessionState :=
  Eval vm_compute in
    or_initial (run_events (repeat (env_a, ClickAccept) 24) session_train0).

(** * Properties *)

(** ** The generator *)

Section GeneratorFacts.

Context {G : Type} `{PyRandom G}.

Lemma choice_nonempty {A : Type} (seq : list A) (g : G) :
  seq <> [] ->
  exists x, choice seq g = Ok (x, snd (randbelow (Z.of_nat (List.length seq)) g))
            /\ In x seq.
Proof.
  intros Hne. unfold choice.
  destruct seq as [|a seq']; [congruence|].
  set (seq := a :: seq') in *.
  pose proof (randbelow_range (Z.of_nat (List.length seq)) g) as Hr.
  destruct (randbelow (Z.of_nat (List.length seq)) g) as [i g'].
  cbn [fst snd] in *.
  assert (Hlen : 0 < Z.of_nat (List.length seq)) by (subst seq; cbn [List.length]; lia).
  specialize (Hr Hlen).
  destruct (nth_error seq (Z.to_nat i)) as [x|] eqn:Hn.
  - exists x. split; [reflexivity|]. eapply nth_error_In; eassumption.
  - apply nth_error_None in Hn. lia.
Qed.

(** The draw does not depend on the identifier: the same generator state
    gives the same amounts and the same next state. *)
Lemma sample_mixed_gamble_draw (d : Z) (g : G) :
  exists w l g',
    In w (tier_wins d) /\ In l (tier_loses d)
    /\ forall uuid4 : string,
        sample_mixed_gamble d uuid4 g
        = Ok (mkGamble f0_5 (float_of_Z w) f0_5 (float_of_Z l) (short_id uuid4), g').
Proof.
  unfold sample_mixed_gamble, tier_wins, tier_loses, rand_bind, rret.
  destruct (d <=? 0); [|destruct (d =? 1)]; cbv beta.
  all: match goal with
       | |- context [choice ?ws ?g0] =>
           destruct (choice_nonempty ws g0 ltac:(discriminate)) as (w & -> & Hw)
       end;
       match goal with
       | |- context [choice ?ls ?g1] =>
           destruct (choice_nonempty ls g1 ltac:(discriminate)) as (l & -> & Hl)
       end;
       cbn [fst snd]; eauto 8.
Qed.

Lemma sample_mixed_gamble_inv (d : Z) (uuid4 : string) (g : G) :
  exists w l g',
    sample_mixed_gamble d uuid4 g
    = Ok (mkGamble f0_5 (float_of_Z w) f0_5 (float_of_Z l) (short_id uuid4), g')
    /\ In w (tier_wins d) /\ In l (tier_loses d).
Proof.
  destruct (sample_mixed_gamble_draw d g) as (w & l & g' & Hw & Hl & Hs).
  exists w, l, g'. auto.
Qed.

Lemma tier_amounts (d w l : Z) :
  In w (tier_wins d) -> In l (tier_loses d) -> In w amounts /\ In l amounts.
Proof.
  unfold tier_wins, tier_loses.
  destruct (d <=? 0); [|destruct (d =? 1)]; cbn; intuition auto.
Qed.

Lemma amount_value (z : Z) :
  In z amounts ->
  0 < z /\ has_value (float_of_Z z) (inject_Z z) /\ flt f0_0 (float_of_Z z) = true.
Proof.
  cbn. intros Hz.
  repeat (destruct Hz as [<-|Hz]; [repeat split; vm_compute; reflexivity|]).
  destruct Hz.
Qed.

Lemma ev_of_amounts (w l : Z) (id : string) :
  In w amounts -> In l amounts ->
  has_value (ev (mkGamble f0_5 (float_of_Z w) f0_5 (float_of_Z l) id))
            ((1 # 2) * inject_Z w - (1 # 2) * inject_Z l).
Proof.
  cbn. intros Hw Hl.
  repeat (destruct Hw as [<-|Hw];
          [repeat (destruct Hl as [<-|Hl]; [vm_compute; reflexivity|]); destruct Hl|]).
  destruct Hw.
Qed.

(** C3. For a difficulty tier in {0, 1, 2} and any state of any randomness
    source, [sample_mixed_gamble] returns a gamble (it does not raise)
    whose win and loss probabilities are both 0.5 and whose win and loss
    amounts are strictly positive and belong to the sets documented for
    the tier. *)
Theorem sample_mixed_gamble_in_tier (d : Z) (uuid4 : string) (g : G) :
  0 <= d <= 2 ->
  exists gam g' w l,
    sample_mixed_gamble d uuid4 g = Ok (gam, g')
    /\ has_value (p_win gam) (1 # 2) /\ has_value (p_lose gam) (1 # 2)
    /\ has_value (win gam) (inject_Z w) /\ has_value (lose gam) (inject_Z l)
    /\ 0 < w /\ 0 < l
    /\ flt f0_0 (win gam) = true /\ flt f0_0 (lose gam) = true
    /\ (d = 0 -> In w [6; 8; 10; 12; 14; 16] /\ In l [4; 6; 8; 10; 12])
    /\ (d = 1 -> In w [10; 12; 14; 16; 18; 20; 22]
                 /\ In l [8; 10; 12; 14; 16; 18])
    /\ (d = 2 -> In w [16; 18; 20; 22; 24; 26; 28; 30]
                 /\ In l [12; 14; 16; 18; 20; 22; 24]).
Proof.
  intros Hd.
  destruct (sample_mixed_gamble_inv d uuid4 g) as (w & l & g' & Hs & Hw & Hl).
  destruct (tier_amounts d w l Hw Hl) as [Haw Hal].
  destruct (amount_value w Haw) as (Hw0 & Hwv & Hwp).
  destruct (amount_value l Hal) as (Hl0 & Hlv & Hlp).
  exists (mkGamble f0_5 (float_of_Z w) f0_5 (float_of_Z l) (short_id uuid4)), g', w, l.
  cbn [p_win p_lose win lose].
  do 9 (split; [first [assumption | vm_compute; reflexivity]|]).
  split; [|split]; intros ->; split; assumption.
Qed.

(** C10. [sample_mixed_gamble] is total over every integer difficulty: it
    behaves on [d] as on [d] clamped into [0, 2], so a difficulty at or
    below 0 draws from the tier-0 sets and one at or above 2 from the
    tier-2 sets; it never raises, and the amounts always belong to one of
    the three documented pairs of sets. *)
Theorem sample_mixed_gamble_total (d : Z) (uuid4 : string) (g : G) :
  sample_mixed_gamble d uuid4 g
  = sample_mixed_gamble (Z.max 0 (Z.min 2 d)) uuid4 g
  /\ exists gam g' w l,
      sample_mixed_gamble d uuid4 g = Ok (gam, g')
      /\ win gam = float_of_Z w /\ lose gam = float_of_Z l
      /\ (d <= 0 -> In w [6; 8; 10; 12; 14; 16] /\ In l [4; 6; 8; 10; 12])
      /\ (2 <= d -> In w [16; 18; 20; 22; 24; 26; 28; 30]
                    /\ In l [12; 14; 16; 18; 20; 22; 24])
      /\ ((In w [6; 8; 10; 12; 14; 16] /\ In l [4; 6; 8; 10; 12])
          \/ (In w [10; 12; 14; 16; 18; 20; 22] /\ In l [8; 10; 12; 14; 16; 18])
          \/ (In w [16; 18; 20; 22; 24; 26; 28; 30]
              /\ In l [12; 14; 16; 18; 20; 22; 24])).
Proof.
  split.
  - unfold sample_mixed_gamble.
    destruct (Z.leb_spec d 0) as [Hd|Hd].
    + replace (Z.max 0 (Z.min 2 d)) with 0 by lia. reflexivity.
    + destruct (Z.eqb_spec d 1) as [->|Hd1]; [reflexivity|].
      replace (Z.max 0 (Z.min 2 d)) with 2 by lia. reflexivity.
  - destruct (sample_mixed_gamble_inv d uuid4 g) as (w & l & g' & Hs & Hw & Hl).
    exists (mkGamble f0_5 (float_of_Z w) f0_5 (float_of_Z l) (short_id uuid4)), g', w, l.
    cbn [win lose]. unfold tier_wins, tier_loses in Hw, Hl.
    split; [exact Hs|]. split; [reflexivity|]. split; [reflexivity|].
    destruct (Z.leb_spec d 0) as [Hd|Hd]; [|destruct (Z.eqb_spec d 1) as [->|Hd1]].
    + split; [auto|]. split; [intros; lia|]. left; auto.
    + split; [intros; lia|]. split; [intros; lia|]. right; left; auto.
    + split; [intros; lia|]. split; [auto|]. right; right; auto.
Qed.

(** C9. The expected value of every generated gamble is exactly
    [p_win * win - p_lose * lose]: no rounding occurs in the float
    computation; with both probabilities 0.5 it is [(win - lose) / 2],
    and for win 20 and loss 10 it is the float 5.0. *)
Theorem ev_exact (d : Z) (uuid4 : string) (g : G) :
  (exists gam g' pw w pl l,
      sample_mixed_gamble d uuid4 g = Ok (gam, g')
      /\ has_value (p_win gam) pw /\ has_value (win gam) w
      /\ has_value (p_lose gam) pl /\ has_value (lose gam) l
      /\ has_value (ev gam) (pw * w - pl * l)
      /\ has_value (ev gam) ((w - l) / 2))
  /\ ev (mkGamble f0_5 (float_of_Z 20) f0_5 (float_of_Z 10) (short_id uuid4))
     = float_of_Z 5.
Proof.
  split; [|vm_compute; reflexivity].
  destruct (sample_mixed_gamble_inv d uuid4 g) as (w & l & g' & Hs & Hw & Hl).
  destruct (tier_amounts d w l Hw Hl) as [Haw Hal].
  destruct (amount_value w Haw) as (_ & Hwv & _).
  destruct (amount_value l Hal) as (_ & Hlv & _).
  pose proof (ev_of_amounts w l (short_id uuid4) Haw Hal) as Hev.
  exists (mkGamble f0_5 (float_of_Z w) f0_5 (float_of_Z l) (short_id uuid4)), g',
    (1 # 2)%Q, (inject_Z w), (1 # 2)%Q, (inject_Z l).
  cbn [p_win p_lose win lose].
  split; [exact Hs|].
  split; [vm_compute; reflexivity|]. split; [exact Hwv|].
  split; [vm_compute; reflexivity|]. split; [exact Hlv|].
  split; [exact Hev|].
  revert Hev. unfold has_value.
  destruct (to_Q (ev _)) as [v|]; [|contradiction].
  intros ->. field.
Qed.

End GeneratorFacts.

(** ** The flag classifier *)

(** C2. [simple_loss_aversion_flag] returns [loss_aversion_possible]
    exactly when the gamble's expected value is at least 2.0 and the
    decision is [reject], [risk_seeking_or_noise] exactly when the expected
    value is at most -2.0 and the decision is [accept], and [none] in every
    other case; the result is a function of the expected value and the
    decision alone. *)
Theorem simple_loss_aversion_flag_spec (g : MixedGamble) (decision : string) :
  (simple_loss_aversion_flag g decision = "loss_aversion_possible"
   <-> fge (ev g) f2_0 = true /\ decision = "reject")
  /\ (simple_loss_aversion_flag g decision = "risk_seeking_or_noise"
      <-> fle (ev g) fneg2_0 = true /\ decision = "accept")
  /\ (simple_loss_aversion_flag g decision = "none"
      <-> ~ (fge (ev g) f2_0 = true /\ decision = "reject")
          /\ ~ (fle (ev g) fneg2_0 = true /\ decision = "accept"))
  /\ (forall g' : MixedGamble,
         ev g' = ev g ->
         simple_loss_aversion_flag g' decision
         = simple_loss_aversion_flag g decision).
Proof.
  unfold simple_loss_aversion_flag.
  destruct (fge (ev g) f2_0) eqn:Hge; destruct (fle (ev g) fneg2_0) eqn:Hle;
    destruct (String.eqb_spec decision "reject") as [Hr|Hr];
    destruct (String.eqb_spec decision "accept") as [Ha|Ha];
    cbn [andb];
    try (exfalso; subst decision; discriminate).
  all: repeat split;
    try (intros g' Hg'; rewrite Hg', Hge, Hle;
         repeat match goal with
                | |- context [String.eqb ?a ?b] =>
                    destruct (String.eqb_spec a b); try contradiction
                end; reflexivity);
    try discriminate; try tauto; try (intros [? ?]; congruence);
    try (intros [? ?]; discriminate).
Qed.

(** On the amounts the generator yields, the two float thresholds read as
    integer conditions on [win - lose]. *)
Lemma ev_thresholds_of_amounts (w l : Z) (id : string) :
  In w amounts -> In l amounts ->
  let g := mkGamble f0_5 (float_of_Z w) f0_5 (float_of_Z l) id in
  fge (ev g) f2_0 = (4 <=? w - l) /\ fle (ev g) fneg2_0 = (w - l <=? -4).
Proof.
  cbn. intros Hw Hl.
  repeat (destruct Hw as [<-|Hw];
          [repeat (destruct Hl as [<-|Hl]; [vm_compute; split; reflexivity|]);
           destruct Hl|]).
  destruct Hw.
Qed.

(** ** Integer true division against the two thresholds *)

Section DivisionFacts.

Lemma digits2_pos_bounds (p : positive) :
  2 ^ (Z.pos (digits2_pos p) - 1) <= Z.pos p < 2 ^ Z.pos (digits2_pos p).
Proof.
  induction p as [p IH|p IH|]; cbn [digits2_pos].
  - rewrite Pos2Z.inj_succ.
    replace (Z.succ (Z.pos (digits2_pos p)) - 1) with (Z.succ (Z.pos (digits2_pos p) - 1)) by lia.
    rewrite !Z.pow_succ_r by lia. lia.
  - rewrite Pos2Z.inj_succ.
    replace (Z.succ (Z.pos (digits2_pos p)) - 1) with (Z.succ (Z.pos (digits2_pos p) - 1)) by lia.
    rewrite !Z.pow_succ_r by lia. lia.
  - cbn. lia.
Qed.

Lemma digits2_pos_unique (p : positive) (d : Z) :
  2 ^ (d - 1) <= Z.pos p < 2 ^ d -> Z.pos (digits2_pos p) = d.
Proof.
  intros [Hlo Hhi].
  pose proof (digits2_pos_bounds p) as [Hlo' Hhi'].
  assert (Hd : 0 < d).
  { destruct (Z.ltb_spec 0 d) as [|Hn]; [assumption|].
    exfalso. destruct (Z.eq_dec d 0) as [->|Hne]; [cbn in Hhi; lia|].
    rewrite Z.pow_neg_r in Hhi by lia. lia. }
  destruct (Z.lt_trichotomy (Z.pos (digits2_pos p)) d) as [Hlt|[Heq|Hgt]].
  - exfalso.
    assert (2 ^ Z.pos (digits2_pos p) <= 2 ^ (d - 1))
      by (apply Z.pow_le_mono_r; lia).
    lia.
  - exact Heq.
  - exfalso.
    assert (2 ^ d <= 2 ^ (Z.pos (digits2_pos p) - 1))
      by (apply Z.pow_le_mono_r; lia).
    lia.
Qed.

Lemma loc_of_shr_record_of_loc (m : Z) (l : location) :
  loc_of_shr_record (shr_record_of_loc m l) = l.
Proof. destruct l as [|[ | | ]]; reflexivity. Qed.

Lemma shr_m_of_loc (m : Z) (l : location) :
  shr_m (shr_record_of_loc m l) = m.
Proof. destruct l as [|[ | | ]]; reflexivity. Qed.

Lemma shr_fexp_normal (m e : Z) (l : location) :
  2 ^ 52 <= m < 2 ^ 53 -> -1074 <= e ->
  shr_fexp prec emax m e l = (shr_record_of_loc m l, e).
Proof.
  intros Hm He. unfold shr_fexp.
  destruct m as [|p|p]; try lia.
  cbn [Zdigits2]. rewrite (digits2_pos_unique p 53) by (cbn; lia).
  replace (fexp prec emax (53 + e) - e) with 0; [reflexivity|].
  unfold fexp, SpecFloat.emin, prec, emax. lia.
Qed.

Lemma round_tail (m e : Z) :
  2 ^ 52 <= m <= 2 ^ 53 -> -1074 <= e <= 969 ->
  (let '(mrs, e') := shr_fexp prec emax m e loc_Exact in
   match shr_m mrs with
   | Z0 => S754_zero false
   | Z.pos m' =>
       if e' <=? emax - prec then S754_finite false m' e'
       else S754_infinity false
   | Z.neg _ => S754_nan
   end) = pack m e.
Proof.
  intros Hm He. unfold pack.
  destruct (Z.ltb_spec m (2 ^ 53)) as [Hlt|Hge].
  - rewrite shr_fexp_normal by lia. cbn [shr_m shr_record_of_loc].
    destruct m as [|p|p]; try lia.
    destruct (Z.leb_spec e (emax - prec)) as [_|Hbad];
      [reflexivity|unfold emax, prec in Hbad; lia].
  - assert (m = 2 ^ 53) by lia. subst m.
    unfold shr_fexp.
    change (Zdigits2 (2 ^ 53)) with 54.
    replace (fexp prec emax (54 + e) - e) with 1
      by (unfold fexp, SpecFloat.emin, prec, emax; lia).
    cbn -[Z.leb Z.add emax prec].
    destruct (Z.leb_spec (e + 1) (emax - prec)) as [_|Hbad];
      [reflexivity|unfold emax, prec in Hbad; lia].
Qed.

Lemma round_new_location (q D r : Z) :
  0 <= r < D ->
  let m := round_nearest_even q (new_location D r) in
  q <= m <= q + 1 /\ (m = q + 1 -> D <= 2 * r) /\ (m = q -> 2 * r <= D).
Proof.
  intros Hr. unfold new_location, new_location_even, new_location_odd.
  destruct (Z.even D) eqn:HD.
  - destruct (Z.eqb_spec r 0) as [->|Hr0]; cbn [round_nearest_even]; [lia|].
    destruct (Z.compare_spec (2 * r) D) as [Hc|Hc|Hc]; cbn [round_nearest_even];
      try destruct (Z.even q); lia.
  - assert (HDodd : Z.odd D = true) by (rewrite <- Z.negb_even, HD; reflexivity).
    apply Z.odd_spec in HDodd. destruct HDodd as [k Hk].
    destruct (Z.eqb_spec r 0) as [->|Hr0]; cbn [round_nearest_even]; [lia|].
    destruct (Z.compare_spec (2 * r + 1) D) as [Hc|Hc|Hc]; cbn [round_nearest_even];
      lia.
Qed.

Lemma bra_53 (q e : Z) (l : location) :
  2 ^ 52 <= q < 2 ^ 53 -> -1074 <= e <= 969 ->
  binary_round_aux prec emax false q e l = pack (round_nearest_even q l) e.
Proof.
  intros Hq He. unfold binary_round_aux.
  rewrite shr_fexp_normal by lia.
  rewrite shr_m_of_loc, loc_of_shr_record_of_loc.
  apply round_tail; [|lia].
  destruct l as [|[ | | ]]; cbn [round_nearest_even];
    try destruct (Z.even q); lia.
Qed.

Lemma bra_54 (q e : Z) (l : location) :
  2 ^ 53 <= q < 2 ^ 54 -> -1074 <= e <= 968 ->
  binary_round_aux prec emax false q e l
  = pack (round_nearest_even
            (q / 2) (loc_of_shr_record (shr_1 (shr_record_of_loc q l))))
         (e + 1)
    /\ shr_m (shr_1 (shr_record_of_loc q l)) = q / 2.
Proof.
  intros Hq He. unfold binary_round_aux, shr_fexp at 1.
  destruct q as [|p|p]; try lia.
  cbn [Zdigits2]. rewrite (digits2_pos_unique p 54) by (cbn; lia).
  replace (fexp prec emax (54 + e) - e) with 1
    by (unfold fexp, SpecFloat.emin, prec, emax; lia).
  cbn [shr iter_pos].
  assert (Hm : shr_m (shr_1 (shr_record_of_loc (Z.pos p) l)) = Z.pos p / 2).
  { destruct l as [|[ | | ]]; destruct p as [p'|p'|]; cbn [shr_record_of_loc shr_1 shr_m];
      try lia;
      first [ rewrite Pos2Z.inj_xI; apply Z.div_unique with (r := 1); lia
            | rewrite Pos2Z.inj_xO; apply Z.div_unique with (r := 0); lia ]. }
  split; [|exact Hm].
  rewrite Hm.
  apply round_tail; [|lia].
  assert (2 ^ 52 <= Z.pos p / 2 < 2 ^ 53).
  { split; [apply Z.div_le_lower_bound; lia | apply Z.div_lt_upper_bound; lia]. }
  destruct (loc_of_shr_record _) as [|[ | | ]]; cbn [round_nearest_even];
    try destruct (Z.even _); lia.
Qed.

Lemma round_shifted_location (q D r : Z) :
  0 <= r < D -> 0 <= q ->
  let m := round_nearest_even
             (q / 2)
             (loc_of_shr_record (shr_1 (shr_record_of_loc q (new_location D r)))) in
  rounds (q * D + r) (2 * D) m.
Proof.
  intros Hr Hq m. unfold rounds.
  exists (q / 2), ((q mod 2) * D + r).
  pose proof (Z.div_mod q 2 ltac:(lia)) as Hdm.
  pose proof (Z.mod_pos_bound q 2 ltac:(lia)) as Hmod.
  assert (Hloc :
    (q mod 2 = 0 /\ (loc_of_shr_record (shr_1 (shr_record_of_loc q (new_location D r))) = loc_Exact
                    \/ loc_of_shr_record (shr_1 (shr_record_of_loc q (new_location D r))) = loc_Inexact Lt))
    \/ (q mod 2 = 1 /\ r = 0
        /\ loc_of_shr_record (shr_1 (shr_record_of_loc q (new_location D r))) = loc_Inexact Eq)
    \/ (q mod 2 = 1 /\ 0 < r
        /\ loc_of_shr_record (shr_1 (shr_record_of_loc q (new_location D r))) = loc_Inexact Gt)).
  { assert (Hnl : (r = 0 /\ new_location D r = loc_Exact)
                  \/ (0 < r /\ exists c, new_location D r = loc_Inexact c)).
    { unfold new_location, new_location_even, new_location_odd.
      destruct (Z.even D); destruct (Z.eqb_spec r 0) as [->|Hr0]; auto;
        right; (split; [lia|]); eauto. }
    destruct q as [|p|p]; try lia.
    - left. split; [reflexivity|].
      destruct Hnl as [[_ ->]|[_ [c ->]]]; [left; reflexivity|].
      destruct c; cbn; auto.
    - destruct p as [p'|p'|].
      + right.
        assert (Hq1 : Z.pos p'~1 mod 2 = 1).
        { rewrite Pos2Z.inj_xI. symmetry.
          apply Z.mod_unique with (q := Z.pos p'); lia. }
        destruct Hnl as [[-> ->]|[Hr0 [c ->]]].
        * left. split; [exact Hq1|]. split; reflexivity.
        * right. split; [exact Hq1|]. split; [lia|]. destruct c; reflexivity.
      + left.
        assert (Hq0 : Z.pos p'~0 mod 2 = 0).
        { rewrite Pos2Z.inj_xO. symmetry.
          apply Z.mod_unique with (q := Z.pos p'); lia. }
        split; [exact Hq0|].
        destruct Hnl as [[_ ->]|[_ [c ->]]]; [left; reflexivity|].
        destruct c; cbn; auto.
      + right.
        destruct Hnl as [[-> ->]|[Hr0 [c ->]]].
        * left. split; [reflexivity|]. split; reflexivity.
        * right. split; [reflexivity|]. split; [lia|]. destruct c; reflexivity. }
  subst m.
  destruct Hloc as [[Hq2 [-> | ->]]|[(Hq2 & Hr0 & ->)|(Hq2 & Hr0 & ->)]];
    cbn [round_nearest_even]; try destruct (Z.even (q / 2)); rewrite Hq2;
    repeat split; try nia; try lia.
Qed.

Lemma float_of_Z_normal (z : Z) :
  0 < z < 2 ^ 53 ->
  exists m e,
    float_of_Z z = S754_finite false m e
    /\ 2 ^ 52 <= Z.pos m < 2 ^ 53 /\ -52 <= e <= 0
    /\ Z.pos m = z * 2 ^ (- e).
Proof.
  intros Hz. destruct z as [|p|p]; try lia.
  pose proof (digits2_pos_bounds p) as Hb.
  set (d := Z.pos (digits2_pos p)) in *.
  assert (Hd : 1 <= d <= 53).
  { split; [subst d; lia|].
    destruct (Z.leb_spec d 53) as [|Hgt]; [assumption|exfalso].
    assert (2 ^ 53 <= 2 ^ (d - 1)) by (apply Z.pow_le_mono_r; lia). lia. }
  unfold float_of_Z, binary_normalize, binary_round.
  fold d. replace (fexp prec emax (d + 0)) with (d - 53)
    by (unfold fexp, SpecFloat.emin, prec, emax; lia).
  unfold shl_align. rewrite Z.sub_0_r.
  destruct (d - 53) as [|k|k] eqn:Hk; try lia.
  - (* already 53 bits *)
    assert (d = 53) by lia.
    rewrite bra_53 by (replace d with 53 in Hb by lia; cbn in Hb |- *; lia).
    cbn [round_nearest_even]. unfold pack.
    destruct (Z.ltb_spec (Z.pos p) (2 ^ 53)) as [_|Hbad]; [|lia].
    exists p, 0. cbn [Z.to_pos]. replace d with 53 in Hb by lia.
    repeat split; cbn in Hb |- *; lia.
  - (* shifted left by [53 - d] *)
    change (Pos.iter xO p k) with (shift_pos k p).
    assert (Hm : Z.pos (shift_pos k p) = Z.pos p * 2 ^ (53 - d)).
    { rewrite shift_pos_correct. change (Zpower_pos 2 k) with (2 ^ Z.pos k).
      replace (53 - d) with (Z.pos k) by lia. lia. }
    assert (Hr : 2 ^ 52 <= Z.pos (shift_pos k p) < 2 ^ 53).
    { rewrite Hm.
      replace (2 ^ 52) with (2 ^ (d - 1) * 2 ^ (53 - d))
        by (rewrite <- Z.pow_add_r by lia; f_equal; lia).
      replace (2 ^ 53) with (2 ^ d * 2 ^ (53 - d))
        by (rewrite <- Z.pow_add_r by lia; f_equal; lia).
      assert (0 < 2 ^ (53 - d)) by (apply Z.pow_pos_nonneg; lia).
      nia. }
    rewrite bra_53 by lia.
    cbn [round_nearest_even]. unfold pack.
    destruct (Z.ltb_spec (Z.pos (shift_pos k p)) (2 ^ 53)) as [_|Hbad]; [|lia].
    exists (shift_pos k p), (Z.neg k). cbn [Z.to_pos].
    repeat split; try lia.
    rewrite Hm. f_equal. f_equal. lia.
Qed.

Lemma quot_lower (N D q r K : Z) :
  N = D * q + r -> 0 <= r < D -> K * D <= N -> K <= q.
Proof. intros -> Hr HK. nia. Qed.

Lemma quot_upper (N D q r K : Z) :
  N = D * q + r -> 0 <= r < D -> N < K * D -> q < K.
Proof. intros -> Hr HK. nia. Qed.

Lemma quot_range (a b P q r : Z) :
  0 < P -> P <= a < 2 * P -> P <= b < 2 * P ->
  a * (2 * P) = b * q + r -> 0 <= r < b ->
  P <= q < 4 * P /\ (a < b -> q < 2 * P) /\ (b <= a -> 2 * P <= q).
Proof.
  intros HP Ha Hb HN Hr. repeat split.
  - apply (quot_lower _ _ _ _ _ HN Hr). nia.
  - apply (quot_upper _ _ _ _ _ HN Hr). nia.
  - intros Hlt. apply (quot_upper _ _ _ _ _ HN Hr). nia.
  - intros Hge. apply (quot_lower _ _ _ _ _ HN Hr). nia.
Qed.

Lemma fdiv_normal (m1 m2 : positive) (e1 e2 : Z) :
  2 ^ 52 <= Z.pos m1 < 2 ^ 53 -> 2 ^ 52 <= Z.pos m2 < 2 ^ 53 ->
  -52 <= e1 <= 0 -> -52 <= e2 <= 0 ->
  exists m,
    2 ^ 52 <= m <= 2 ^ 53
    /\ ((Z.pos m1 < Z.pos m2
         /\ rounds (Z.pos m1 * 2 ^ 53) (Z.pos m2) m
         /\ fdiv (S754_finite false m1 e1) (S754_finite false m2 e2)
            = pack m (e1 - e2 - 53))
        \/ (Z.pos m2 <= Z.pos m1
            /\ rounds (Z.pos m1 * 2 ^ 53) (2 * Z.pos m2) m
            /\ fdiv (S754_finite false m1 e1) (S754_finite false m2 e2)
               = pack m (e1 - e2 - 52))).
Proof.
  intros H1 H2 He1 He2.
  unfold fdiv, SFdiv, SFdiv_core_binary. cbn [Zdigits2 xorb].
  rewrite (digits2_pos_unique m1 53), (digits2_pos_unique m2 53) by (cbn; lia).
  replace (Z.min (fexp prec emax (53 + e1 - (53 + e2))) (e1 - e2))
    with (e1 - e2 - 53)
    by (unfold fexp, SpecFloat.emin, prec, emax; lia).
  replace (e1 - e2 - (e1 - e2 - 53)) with 53 by lia.
  cbv iota. rewrite Z.shiftl_mul_pow2 by lia.
  pose proof (Z_div_mod (Z.pos m1 * 2 ^ 53) (Z.pos m2) ltac:(lia)) as Hdm.
  destruct (Z.div_eucl (Z.pos m1 * 2 ^ 53) (Z.pos m2)) as [q r].
  destruct Hdm as [HN Hr].
  destruct (quot_range (Z.pos m1) (Z.pos m2) (2 ^ 52) q r) as (Hq & Hqlt & Hqge);
    [lia | exact H1 | exact H2 | exact HN | exact Hr |].
  change (4 * 2 ^ 52) with (2 ^ 54) in Hq.
  change (2 * 2 ^ 52) with (2 ^ 53) in Hqlt, Hqge.
  destruct (Z.ltb_spec (Z.pos m1) (Z.pos m2)) as [Hlt|Hge].
  - assert (Hq' : q < 2 ^ 53) by (apply Hqlt, Hlt).
    rewrite bra_53 by lia.
    pose proof (round_new_location q (Z.pos m2) r Hr) as Hrn.
    cbv zeta in Hrn.
    exists (round_nearest_even q (new_location (Z.pos m2) r)).
    split; [lia|]. left. split; [exact Hlt|]. split; [|reflexivity].
    exists q, r. repeat split; try lia; apply Hrn.
  - assert (Hq' : 2 ^ 53 <= q) by (apply Hqge, Hge).
    destruct (bra_54 q (e1 - e2 - 53) (new_location (Z.pos m2) r)) as [-> Hshr];
      [lia|lia|].
    pose proof (round_shifted_location q (Z.pos m2) r Hr ltac:(lia)) as Hrn.
    cbv zeta in Hrn.
    exists (round_nearest_even (q / 2)
              (loc_of_shr_record
                 (shr_1 (shr_record_of_loc q (new_location (Z.pos m2) r))))).
    assert (Hq2 : 2 ^ 52 <= q / 2 < 2 ^ 53).
    { split; [apply Z.div_le_lower_bound; lia | apply Z.div_lt_upper_bound; lia]. }
    split.
    { destruct (loc_of_shr_record _) as [|[ | | ]]; cbn [round_nearest_even];
        try destruct (Z.even _); lia. }
    right. split; [exact Hge|]. split.
    + replace (Z.pos m1 * 2 ^ 53) with (q * Z.pos m2 + r) by lia. exact Hrn.
    + f_equal. lia.
Qed.

Lemma rounds_ge (N D m M : Z) :
  rounds N D m -> 0 < D -> M * D <= N -> M <= m.
Proof. intros (q & r & -> & Hr & Hm & _ & _) HD HM. nia. Qed.

Lemma rounds_lt (N D m M : Z) :
  rounds N D m -> 0 < D -> 2 * N < (2 * M - 1) * D -> m < M.
Proof.
  intros (q & r & -> & Hr & Hm & Hup & _) HD HM.
  destruct (Z.eq_dec m (q + 1)) as [He|He]; [specialize (Hup He)|]; nia.
Qed.

Lemma rounds_le (N D m M : Z) :
  rounds N D m -> 0 < D -> N <= M * D -> m <= M.
Proof.
  intros (q & r & -> & Hr & Hm & Hup & _) HD HM.
  destruct (Z.eq_dec m (q + 1)) as [He|He]; [specialize (Hup He)|]; nia.
Qed.

Lemma rounds_gt (N D m M : Z) :
  rounds N D m -> 0 < D -> (2 * M + 1) * D < 2 * N -> M < m.
Proof.
  intros (q & r & -> & Hr & Hm & _ & Hdown) HD HM.
  destruct (Z.eq_dec m q) as [He|He]; [specialize (Hdown He)|]; nia.
Qed.

Lemma SFleb_finite_pos (m1 m2 : positive) (e1 e2 : Z) :
  SFleb (S754_finite false m1 e1) (S754_finite false m2 e2)
  = (e1 <? e2) || ((e1 =? e2) && (Z.pos m1 <=? Z.pos m2)).
Proof.
  unfold SFleb, SFcompare, Z.leb. cbn [Z.compare]. unfold Pos.compare.
  destruct (Z.compare_spec e1 e2) as [He|He|He].
  - subst e2. rewrite Z.ltb_irrefl, Z.eqb_refl. cbn [orb andb].
    destruct (Pos.compare_cont Eq m1 m2); reflexivity.
  - destruct (Z.ltb_spec e1 e2); [reflexivity|lia].
  - destruct (Z.ltb_spec e1 e2); [lia|].
    destruct (Z.eqb_spec e1 e2); [lia|reflexivity].
Qed.

Lemma fge_finite_0_6 (m : positive) (e : Z) :
  fge (S754_finite false m e) f0_6
  = (-53 <? e) || ((-53 =? e) && (5404319552844595 <=? Z.pos m)).
Proof. apply SFleb_finite_pos. Qed.

Lemma fle_finite_0_2 (m : positive) (e : Z) :
  fle (S754_finite false m e) f0_2
  = (e <? -55) || ((e =? -55) && (Z.pos m <=? 7205759403792794)).
Proof. apply SFleb_finite_pos. Qed.

(** The operands of [la / n], normalised, with the scales that relate the
    mantissas to the integers. *)
Lemma operands_normal (la n : Z) :
  0 < la <= n -> n < 2 ^ 53 ->
  exists m1 e1 m2 e2 k B,
    float_of_Z la = S754_finite false m1 e1
    /\ float_of_Z n = S754_finite false m2 e2
    /\ 2 ^ 52 <= Z.pos m1 < 2 ^ 53 /\ 2 ^ 52 <= Z.pos m2 < 2 ^ 53
    /\ -52 <= e1 <= 0 /\ -52 <= e2 <= 0
    /\ 0 <= k /\ e1 - e2 = - k /\ 0 < B
    /\ Z.pos m1 = la * (B * 2 ^ k) /\ Z.pos m2 = n * B.
Proof.
  intros Hla Hn.
  destruct (float_of_Z_normal la ltac:(lia)) as (m1 & e1 & Hf1 & Hm1 & He1 & Hv1).
  destruct (float_of_Z_normal n ltac:(lia)) as (m2 & e2 & Hf2 & Hm2 & He2 & Hv2).
  assert (HB : 0 < 2 ^ (- e2)) by (apply Z.pow_pos_nonneg; lia).
  assert (HA : 0 < 2 ^ (- e1)) by (apply Z.pow_pos_nonneg; lia).
  assert (Hk : e1 <= e2).
  { destruct (Z.leb_spec e1 e2) as [|Hgt]; [assumption|exfalso].
    assert (Hpow : 2 ^ (- e2) = 2 ^ (- e1) * 2 ^ (e1 - e2))
      by (rewrite <- Z.pow_add_r by lia; f_equal; lia).
    assert (2 ^ 1 <= 2 ^ (e1 - e2)) by (apply Z.pow_le_mono_r; lia).
    change (2 ^ 1) with 2 in *.
    assert (2 * Z.pos m1 <= Z.pos m2) by (rewrite Hv1, Hv2, Hpow; nia).
    change (2 ^ 53) with (2 * 2 ^ 52) in *. lia. }
  exists m1, e1, m2, e2, (e2 - e1), (2 ^ (- e2)).
  repeat split; try assumption; try lia.
  rewrite Hv1. f_equal. rewrite <- Z.pow_add_r by lia. f_equal. lia.
Qed.

Lemma pow2_cases (k : Z) :
  0 <= k ->
  (k = 0 /\ 2 ^ k = 1) \/ (k = 1 /\ 2 ^ k = 2) \/ (k = 2 /\ 2 ^ k = 4)
  \/ (k = 3 /\ 2 ^ k = 8) \/ (4 <= k /\ 16 <= 2 ^ k).
Proof.
  intros Hk.
  destruct (Z.eq_dec k 0) as [->|]; [left; split; reflexivity|].
  destruct (Z.eq_dec k 1) as [->|]; [right; left; split; reflexivity|].
  destruct (Z.eq_dec k 2) as [->|]; [right; right; left; split; reflexivity|].
  destruct (Z.eq_dec k 3) as [->|]; [right; right; right; left; split; reflexivity|].
  right; right; right; right. split; [lia|].
  change 16 with (2 ^ 4). apply Z.pow_le_mono_r; lia.
Qed.

(** [la / n >= 0.6] in binary64 decides [la / n >= 3 / 5] exactly. *)
Lemma true_div_ge_0_6 (la n : Z) :
  0 <= la <= n -> 0 < n < 2 ^ 51 ->
  fge (fdiv (float_of_Z la) (float_of_Z n)) f0_6 = (3 * n <=? 5 * la).
Proof.
  intros Hla Hn.
  destruct (Z.eq_dec la 0) as [->|Hla0].
  - destruct (float_of_Z_normal n ltac:(change (2 ^ 51) with 2251799813685248 in Hn;
                                        change (2 ^ 53) with 9007199254740992; lia))
      as (m2 & e2 & -> & _).
    change (float_of_Z 0) with (S754_zero false).
    unfold fdiv, fge, f0_6. cbn [SFdiv SFleb SFcompare xorb].
    change (5 * 0) with 0.
    destruct (Z.leb_spec (3 * n) 0); [lia|reflexivity].
  - change (2 ^ 51) with 2251799813685248 in Hn.
    destruct (operands_normal la n ltac:(lia)
                ltac:(change (2 ^ 53) with 9007199254740992; lia))
      as (m1 & e1 & m2 & e2 & k & B & -> & -> & Hm1 & Hm2 & He1 & He2
          & Hk & Hke & HB & Hv1 & Hv2).
    destruct (fdiv_normal m1 m2 e1 e2 Hm1 Hm2 He1 He2)
      as (m & Hm & [(Hlt & Hr & ->)|(Hge & Hr & ->)]).
    all: pose proof (rounds_ge _ _ _ 5404319552844595 Hr ltac:(lia)) as G1;
         pose proof (rounds_lt _ _ _ 5404319552844595 Hr ltac:(lia)) as G2.
    all: unfold pack;
         change (2 ^ 52) with 4503599627370496 in *;
         change (2 ^ 53) with 9007199254740992 in *.
    all: set (X := la * B) in *; set (Y := n * B) in *.
    all: assert (HX : B <= X /\ X <= Y /\ Y + B <= 2251799813685248 * B
                      /\ (3 * n <= 5 * la -> 3 * Y <= 5 * X)
                      /\ (5 * la < 3 * n -> 5 * X + B <= 3 * Y))
           by (subst X Y; repeat split; nia).
    all: assert (HP : Z.pos m1 = X * 2 ^ k) by (subst X; rewrite Hv1; ring).
    all: clearbody X Y; clear Hv1.
    all: destruct (Z.ltb_spec m 9007199254740992) as [Hmlt|Hmge];
         rewrite fge_finite_0_6; rewrite ?Z2Pos.id by lia;
         change (Z.pos (Z.to_pos 4503599627370496)) with 4503599627370496.
    all: destruct (pow2_cases k Hk) as [[Hk0 Hp]|[[Hk0 Hp]|[[Hk0 Hp]|[[Hk0 Hp]|[Hk0 Hp]]]]];
         try rewrite Hp in HP.
    all: try (assert (16 * X <= Z.pos m1) by nia).
    all: destruct (Z.leb_spec (3 * n) (5 * la)) as [Hd|Hd];
         repeat match goal with
           | |- context [Z.ltb ?a ?b] => destruct (Z.ltb_spec a b)
           | |- context [Z.eqb ?a ?b] => destruct (Z.eqb_spec a b)
           | |- context [Z.leb ?a ?b] => destruct (Z.leb_spec a b)
           end; cbn [orb andb]; try reflexivity; exfalso; lia.
Qed.

(** [la / n <= 0.2] in binary64 decides [la / n <= 1 / 5] exactly. *)
Lemma true_div_le_0_2 (la n : Z) :
  0 <= la <= n -> 0 < n < 2 ^ 51 ->
  fle (fdiv (float_of_Z la) (float_of_Z n)) f0_2 = (5 * la <=? n).
Proof.
  intros Hla Hn.
  destruct (Z.eq_dec la 0) as [->|Hla0].
  - destruct (float_of_Z_normal n ltac:(change (2 ^ 51) with 2251799813685248 in Hn;
                                        change (2 ^ 53) with 9007199254740992; lia))
      as (m2 & e2 & -> & _).
    change (float_of_Z 0) with (S754_zero false).
    unfold fdiv, fle, f0_2. cbn [SFdiv SFleb SFcompare xorb].
    change (5 * 0) with 0.
    destruct (Z.leb_spec 0 n); [reflexivity|lia].
  - change (2 ^ 51) with 2251799813685248 in Hn.
    destruct (operands_normal la n ltac:(lia)
                ltac:(change (2 ^ 53) with 9007199254740992; lia))
      as (m1 & e1 & m2 & e2 & k & B & -> & -> & Hm1 & Hm2 & He1 & He2
          & Hk & Hke & HB & Hv1 & Hv2).
    destruct (fdiv_normal m1 m2 e1 e2 Hm1 Hm2 He1 He2)
      as (m & Hm & [(Hlt & Hr & ->)|(Hge & Hr & ->)]).
    all: pose proof (rounds_le _ _ _ 7205759403792794 Hr ltac:(lia)) as G1;
         pose proof (rounds_gt _ _ _ 7205759403792794 Hr ltac:(lia)) as G2.
    all: unfold pack;
         change (2 ^ 52) with 4503599627370496 in *;
         change (2 ^ 53) with 9007199254740992 in *.
    all: set (X := la * B) in *; set (Y := n * B) in *.
    all: assert (HX : B <= X /\ X <= Y /\ Y + B <= 2251799813685248 * B
                      /\ (5 * la <= n -> 5 * X <= Y)
                      /\ (n < 5 * la -> Y + B <= 5 * X))
           by (subst X Y; repeat split; nia).
    all: assert (HP : Z.pos m1 = X * 2 ^ k) by (subst X; rewrite Hv1; ring).
    all: clearbody X Y; clear Hv1.
    all: destruct (Z.ltb_spec m 9007199254740992) as [Hmlt|Hmge];
         rewrite fle_finite_0_2; rewrite ?Z2Pos.id by lia;
         change (Z.pos (Z.to_pos 4503599627370496)) with 4503599627370496.
    all: destruct (pow2_cases k Hk) as [[Hk0 Hp]|[[Hk0 Hp]|[[Hk0 Hp]|[[Hk0 Hp]|[Hk0 Hp]]]]];
         try rewrite Hp in HP.
    all: try (assert (16 * X <= Z.pos m1) by nia).
    all: destruct (Z.leb_spec (5 * la) n) as [Hd|Hd];
         repeat match goal with
           | |- context [Z.ltb ?a ?b] => destruct (Z.ltb_spec a b)
           | |- context [Z.eqb ?a ?b] => destruct (Z.eqb_spec a b)
           | |- context [Z.leb ?a ?b] => destruct (Z.leb_spec a b)
           end; cbn [orb andb]; try reflexivity; exfalso; lia.
Qed.

End DivisionFacts.

(** ** The difficulty adapter *)

Lemma count_la_range (flags : list string) :
  0 <= count_la flags <= Z.of_nat (List.length flags).
Proof.
  unfold count_la. split; [lia|].
  apply inj_le. induction flags as [|f fs IH]; cbn [filter List.length]; [lia|].
  destruct (f =? "loss_aversion_possible")%string; cbn [List.length]; lia.
Qed.

Lemma la_fraction_ge_0_6 (flags : list string) :
  flags <> [] ->
  ((6 # 10) <= la_fraction flags)%Q
  <-> 3 * Z.of_nat (List.length flags) <= 5 * count_la flags.
Proof.
  intros Hne. unfold la_fraction.
  destruct flags as [|f fs]; [congruence|].
  set (la := count_la (f :: fs)).
  cbn [List.length]. rewrite Nat2Z.inj_succ.
  destruct (Z.succ (Z.of_nat (List.length fs))) as [|p|p] eqn:Hp; try lia.
  unfold Qle, Qdiv, Qmult, Qinv. cbn [Qnum Qden inject_Z].
  rewrite Z.mul_1_r, Pos.mul_1_l. lia.
Qed.

Lemma la_fraction_le_0_2 (flags : list string) :
  flags <> [] ->
  (la_fraction flags <= (2 # 10))%Q
  <-> 5 * count_la flags <= Z.of_nat (List.length flags).
Proof.
  intros Hne. unfold la_fraction.
  destruct flags as [|f fs]; [congruence|].
  set (la := count_la (f :: fs)).
  cbn [List.length]. rewrite Nat2Z.inj_succ.
  destruct (Z.succ (Z.of_nat (List.length fs))) as [|p|p] eqn:Hp; try lia.
  unfold Qle, Qdiv, Qmult, Qinv. cbn [Qnum Qden inject_Z].
  rewrite Z.mul_1_r, Pos.mul_1_l. lia.
Qed.

Lemma adapt_difficulty_eq (current : Z) (flags : list string) :
  flags <> [] ->
  Z.of_nat (List.length flags) < 2 ^ 51 ->
  adapt_difficulty current flags
  = Ok (if 3 * Z.of_nat (List.length flags) <=? 5 * count_la flags
        then Z.max 0 (current - 1)
        else if 5 * count_la flags <=? Z.of_nat (List.length flags)
             then Z.min 2 (current + 1)
             else current).
Proof.
  intros Hne Hlen. unfold adapt_difficulty.
  destruct flags as [|f fs]; [congruence|].
  set (flags := f :: fs) in *.
  pose proof (count_la_range flags) as Hla.
  assert (Hn : 0 < Z.of_nat (List.length flags)) by (subst flags; cbn [List.length]; lia).
  unfold int_true_div.
  destruct (Z.eqb_spec (Z.of_nat (List.length flags)) 0) as [Hz|_]; [lia|].
  cbn [rbind].
  rewrite true_div_ge_0_6 by lia.
  destruct (3 * Z.of_nat (List.length flags) <=? 5 * count_la flags); [reflexivity|].
  rewrite true_div_le_0_2 by lia.
  destruct (5 * count_la flags <=? Z.of_nat (List.length flags)); reflexivity.
Qed.

(** No float is both at least 0.6 and at most 0.2. *)
Lemma thresholds_exclusive (f : float) :
  fge f f0_6 = true -> fle f f0_2 = true -> False.
Proof.
  destruct f as [s|s| |s m e]; try discriminate.
  - destruct s; discriminate.
  - destruct s; [discriminate|].
    rewrite fge_finite_0_6, fle_finite_0_2.
    destruct (Z.ltb_spec (-53) e), (Z.ltb_spec e (-55)),
      (Z.eqb_spec (-53) e), (Z.eqb_spec e (-55));
      cbn [orb andb]; try discriminate; lia.
Qed.

(** The bound on the length is needed: with 1544091300812743 flagged entries
    out of 2573485501354572 the exact fraction is below 3/5, and its double
    is the literal 0.6. *)
Lemma true_div_ge_0_6_beyond_bound :
  fge (fdiv (float_of_Z 1544091300812743) (float_of_Z 2573485501354572)) f0_6 = true
  /\ 5 * 1544091300812743 < 3 * 2573485501354572
  /\ 2 ^ 51 < 2573485501354572.
Proof. vm_compute. repeat split. Qed.

(** C1. [adapt_difficulty] returns the tier unchanged on an empty list;
    otherwise, with [f] the fraction of entries equal to
    [loss_aversion_possible], it returns [max(0, tier - 1)] when
    [f >= 0.6], [min(2, tier + 1)] when [f <= 0.2], and the tier unchanged
    otherwise.  This holds for every list with [f] the quotient and the
    comparisons the code computes in binary64, and, for every list shorter
    than [2^51] entries, with [f] the exact rational fraction and the exact
    thresholds 6/10 and 2/10. *)
Theorem adapt_difficulty_spec (current : Z) (recent_flags : list string) :
  (recent_flags = [] -> adapt_difficulty current recent_flags = Ok current)
  /\ (recent_flags <> [] ->
      exists f : float,
        int_true_div (count_la recent_flags)
                     (Z.of_nat (List.length recent_flags)) = Ok f
        /\ (fge f f0_6 = true ->
            adapt_difficulty current recent_flags = Ok (Z.max 0 (current - 1)))
        /\ (fle f f0_2 = true ->
            adapt_difficulty current recent_flags = Ok (Z.min 2 (current + 1)))
        /\ (fge f f0_6 = false -> fle f f0_2 = false ->
            adapt_difficulty current recent_flags = Ok current))
  /\ (Z.of_nat (List.length recent_flags) < 2 ^ 51 ->
      (recent_flags <> [] -> ((6 # 10) <= la_fraction recent_flags)%Q ->
       adapt_difficulty current recent_flags = Ok (Z.max 0 (current - 1)))
      /\ (recent_flags <> [] -> (la_fraction recent_flags <= (2 # 10))%Q ->
          adapt_difficulty current recent_flags = Ok (Z.min 2 (current + 1)))
      /\ (recent_flags <> [] ->
          ~ ((6 # 10) <= la_fraction recent_flags)%Q ->
          ~ (la_fraction recent_flags <= (2 # 10))%Q ->
          adapt_difficulty current recent_flags = Ok current)).
Proof.
  split; [intros ->; reflexivity|].
  pose proof (count_la_range recent_flags) as Hla.
  split.
  { intros Hne. unfold adapt_difficulty.
    destruct recent_flags as [|f0 fs]; [congruence|].
    set (flags := f0 :: fs) in *.
    unfold int_true_div.
    destruct (Z.eqb_spec (Z.of_nat (List.length flags)) 0) as [Hz|_];
      [subst flags; cbn [List.length] in Hz; lia|].
    cbn [rbind]. eexists. split; [reflexivity|].
    set (f := fdiv _ _).
    destruct (fge f f0_6) eqn:Hge.
    - split; [reflexivity|]. split; [|discriminate].
      intros Hle. destruct (thresholds_exclusive f Hge Hle).
    - split; [discriminate|].
      destruct (fle f f0_2); split; try reflexivity; discriminate. }
  intros Hlen.
  split; [|split]; intros Hne.
  - intros Hf. apply la_fraction_ge_0_6 in Hf; [|exact Hne].
    rewrite adapt_difficulty_eq by assumption.
    destruct (Z.leb_spec (3 * Z.of_nat (List.length recent_flags))
                         (5 * count_la recent_flags)); [reflexivity|lia].
  - intros Hf. apply la_fraction_le_0_2 in Hf; [|exact Hne].
    rewrite adapt_difficulty_eq by assumption.
    assert (0 < Z.of_nat (List.length recent_flags))
      by (destruct recent_flags; [congruence|cbn [List.length]; lia]).
    destruct (Z.leb_spec (3 * Z.of_nat (List.length recent_flags))
                         (5 * count_la recent_flags)); [lia|].
    destruct (Z.leb_spec (5 * count_la recent_flags)
                         (Z.of_nat (List.length recent_flags))); [reflexivity|lia].
  - intros Hge Hle.
    rewrite la_fraction_ge_0_6 in Hge by exact Hne.
    rewrite la_fraction_le_0_2 in Hle by exact Hne.
    rewrite adapt_difficulty_eq by assumption.
    destruct (Z.leb_spec (3 * Z.of_nat (List.length recent_flags))
                         (5 * count_la recent_flags)); [lia|].
    destruct (Z.leb_spec (5 * count_la recent_flags)
                         (Z.of_nat (List.length recent_flags))); [lia|reflexivity].
Qed.

(** ** The session *)

Section SessionFacts.

Context {G : Type} `{PyRandom G}.

Lemma adapt_difficulty_total (current : Z) (flags : list string) :
  exists d,
    adapt_difficulty current flags = Ok d
    /\ (0 <= current <= 2 -> 0 <= d <= 2).
Proof.
  unfold adapt_difficulty. destruct flags as [|f fs].
  - exists current. split; [reflexivity|auto].
  - unfold int_true_div.
    destruct (Z.eqb_spec (Z.of_nat (List.length (f :: fs))) 0) as [Hz|_];
      [cbn [List.length] in Hz; lia|].
    cbn [rbind].
    destruct (fge _ f0_6); [eexists; split; [reflexivity|lia]|].
    destruct (fle _ f0_2); eexists; (split; [reflexivity|lia]).
Qed.

Lemma advance_trial_step (env : Env G) (s : SessionState) :
  let i := trial_index s + 1 in
  let boundary := phase_total_trials (phase s) <=? i in
  let ph' := if boundary then next_phase (phase s) else phase s in
  let i' := if boundary then 0 else i in
  let d' := if boundary then 0 else difficulty s in
  let fl' := if boundary then [] else last_flags s in
  exists g',
    advance_trial env s
    = Ok (mkState (participant_id s) ph' i' d' g' (rng_seed s) (logs s) fl')
    /\ (is_trial_phase ph' = true ->
        exists g1,
          sample_mixed_gamble d' (env_uuid_gamble env) (Random (rng_seed s + i'))
          = Ok (g', g1))
    /\ (is_trial_phase ph' = false -> g' = current_gamble s).
Proof.
  cbv zeta. unfold advance_trial, rng. state_simpl.
  destruct (phase_total_trials (phase s) <=? trial_index s + 1); state_simpl.
  - destruct (is_trial_phase (next_phase (phase s))) eqn:Ht.
    + destruct (sample_mixed_gamble_inv 0 (env_uuid_gamble env)
                  (Random (rng_seed s + 0))) as (w & l & g1 & Hs & _).
      rewrite Hs. state_simpl.
      eexists. split; [reflexivity|]. split; [eauto|discriminate].
    + destruct s. eexists. split; [reflexivity|]. split; [discriminate|reflexivity].
  - destruct (is_trial_phase (phase s)) eqn:Ht.
    + destruct (sample_mixed_gamble_inv (difficulty s) (env_uuid_gamble env)
                  (Random (rng_seed s + (trial_index s + 1))))
        as (w & l & g1 & Hs & _).
      rewrite Hs. state_simpl.
      eexists. split; [reflexivity|]. split; [eauto|discriminate].
    + destruct s. eexists. split; [reflexivity|]. split; [discriminate|reflexivity].
Qed.

(** What one processed decision does to the session. *)
Lemma handle_step (env : Env G) (decision : string) (s : SessionState) :
  let flag := simple_loss_aversion_flag (current_gamble s) decision in
  let boundary := phase_total_trials (phase s) <=? trial_index s + 1 in
  exists s' row,
    handle env decision s = Ok s'
    /\ logs s' = (logs s ++ [row])%list
    /\ row_phase row = phase s
    /\ row_trial_in_phase row = trial_index s
    /\ row_decision row = decision
    /\ row_flag row = flag
    /\ row_gamble_id row = gamble_id (current_gamble s)
    /\ participant_id s' = participant_id s
    /\ rng_seed s' = rng_seed s
    /\ (if Phase_eqb (phase s) train
        then adapt_difficulty (difficulty s) (last_n 10 (last_flags s ++ [flag])%list)
             = Ok (row_difficulty row)
        else row_difficulty row = difficulty s)
    /\ (0 <= difficulty s <= 2 -> 0 <= row_difficulty row <= 2)
    /\ (if boundary
        then phase s' = next_phase (phase s) /\ trial_index s' = 0
             /\ difficulty s' = 0 /\ last_flags s' = []
        else phase s' = phase s /\ trial_index s' = trial_index s + 1
             /\ difficulty s' = row_difficulty row
             /\ last_flags s'
                = if Phase_eqb (phase s) train
                  then last_n 10 (last_flags s ++ [flag])%list
                  else last_flags s)
    /\ (is_trial_phase (phase s') = true ->
        exists g1,
          sample_mixed_gamble (difficulty s') (env_uuid_gamble env)
                              (Random (rng_seed s' + trial_index s'))
          = Ok (current_gamble s', g1))
    /\ (is_trial_phase (phase s') = false ->
        current_gamble s' = current_gamble s).
Proof.
  cbv zeta. unfold handle, log_decision.
  set (flag := simple_loss_aversion_flag (current_gamble s) decision).
  destruct (Phase_eqb (phase s) train) eqn:Hph.
  - state_simpl.
    destruct (adapt_difficulty_total (difficulty s)
                (last_n 10 (last_flags s ++ [flag])%list)) as (d & Hd & Hrange).
    rewrite Hd. state_simpl.
    match goal with
    | |- context [advance_trial env ?st] =>
        destruct (advance_trial_step env st) as (g' & Ha & Hg1 & Hg2)
    end.
    cbv zeta in Ha, Hg1, Hg2. state_simpl.
    rewrite Ha. eexists. eexists. split; [reflexivity|]. state_simpl.
    do 8 (split; [reflexivity|]).
    split; [reflexivity|]. split; [exact Hrange|].
    destruct (phase_total_trials (phase s) <=? trial_index s + 1);
      (split; [repeat split; reflexivity|]); split; assumption.
  - state_simpl.
    match goal with
    | |- context [advance_trial env ?st] =>
        destruct (advance_trial_step env st) as (g' & Ha & Hg1 & Hg2)
    end.
    cbv zeta in Ha, Hg1, Hg2. state_simpl.
    rewrite Ha. eexists. eexists. split; [reflexivity|]. state_simpl.
    do 8 (split; [reflexivity|]).
    split; [reflexivity|]. split; [auto|].
    destruct (phase_total_trials (phase s) <=? trial_index s + 1);
      (split; [repeat split; reflexivity|]); split; assumption.
Qed.

End SessionFacts.

(** ** A full run *)

Lemma position_succ (k : Z) :
  0 <= k < 105 ->
  is_trial_phase (fst (position k)) = true
  /\ position (k + 1)
     = if phase_total_trials (fst (position k)) <=? snd (position k) + 1
       then (next_phase (fst (position k)), 0)
       else (fst (position k), snd (position k) + 1).
Proof.
  intros Hk. unfold position.
  destruct (Z.ltb_spec k 40); [|destruct (Z.ltb_spec k 65); [|destruct (Z.ltb_spec k 105)]];
    cbn [fst snd is_trial_phase phase_total_trials next_phase];
    unfold N_PRE, N_TRAIN, N_POST; try lia.
  all: split; [reflexivity|].
  all: repeat match goal with
         | |- context [Z.ltb ?a ?b] => destruct (Z.ltb_spec a b); try lia
         | |- context [Z.leb ?a ?b] => destruct (Z.leb_spec a b); try lia
         end; f_equal; lia.
Qed.

Lemma upto_from_succ (j : Z) (k : nat) :
  upto_from j (S k) = (upto_from j k ++ [j + Z.of_nat k])%list.
Proof. unfold upto_from. rewrite seq_S, map_app. reflexivity. Qed.

Section RunFacts.

Context {G : Type} `{PyRandom G}.

Lemma run_events_app (evs1 evs2 : list (Env G * Event)) (s : SessionState) :
  run_events (evs1 ++ evs2) s
  = (s' <- run_events evs1 s ;; run_events evs2 s').
Proof.
  revert s. induction evs1 as [|[env e] evs1 IH]; intros s; cbn [run_events app rbind].
  - reflexivity.
  - destruct (on_event env e s) as [s1|x]; cbn [rbind]; [apply IH|reflexivity].
Qed.

Lemma on_event_decision (env : Env G) (e : Event) (s : SessionState) :
  is_trial_phase (phase s) = true -> is_decision e = true ->
  on_event env e s = handle env (decision_label e) s.
Proof.
  unfold on_event. destruct (phase s), e; cbn; intros; try discriminate; reflexivity.
Qed.

(** The log after any number of completed trials, from any point of the
    session on: one row per trial, in the order of the trials. *)
Lemma trials_from (j : Z) (evs : list (Env G * Event)) (s : SessionState) :
  0 <= j ->
  (phase s, trial_index s) = position j ->
  Forall (fun x => is_decision (snd x) = true) evs ->
  j + Z.of_nat (List.length evs) <= 105 ->
  exists s' rows,
    run_events evs s = Ok s'
    /\ logs s' = (logs s ++ rows)%list
    /\ List.length rows = List.length evs
    /\ (phase s', trial_index s') = position (j + Z.of_nat (List.length evs))
    /\ map row_phase rows
       = map (fun k => fst (position k)) (upto_from j (List.length evs))
    /\ map row_trial_in_phase rows
       = map (fun k => snd (position k)) (upto_from j (List.length evs))
    /\ map row_decision rows = map (fun x => decision_label (snd x)) evs.
Proof.
  intros Hj Hstart. induction evs as [|[env e] evs IH] using rev_ind; intros Hdec Hlen.
  - exists s, []. cbn [run_events List.length map upto_from seq].
    rewrite app_nil_r, Z.add_0_r. repeat split. exact Hstart.
  - apply Forall_app in Hdec. destruct Hdec as [Hdec He].
    inversion He as [|? ? He' _]; subst. cbn [snd] in He'.
    rewrite length_app in Hlen |- *. cbn [List.length] in Hlen |- *.
    destruct (IH Hdec ltac:(lia)) as (s1 & rows & Hrun & Hlogs & Hlr & Hpos & Hp & Hi & Hd).
    set (k := List.length evs) in *.
    destruct (position_succ (j + Z.of_nat k) ltac:(lia)) as [Htrial Hnext].
    rewrite <- Hpos in Htrial, Hnext. cbn [fst snd] in Htrial, Hnext.
    rewrite run_events_app, Hrun. cbn [rbind run_events].
    rewrite on_event_decision by assumption.
    destruct (handle_step env (decision_label e) s1)
      as (s2 & row & Hh & Hl2 & Hrp & Hri & Hrd & _ & _ & _ & _ & _ & _ & Hb & _).
    cbv zeta in Hb. rewrite Hh. cbn [rbind].
    exists s2, (rows ++ [row])%list.
    split; [reflexivity|].
    split; [rewrite Hl2, Hlogs, app_assoc; reflexivity|].
    split; [rewrite length_app; cbn [List.length]; lia|].
    replace (k + 1)%nat with (S k) by lia.
    split.
    { replace (j + Z.of_nat (S k)) with (j + Z.of_nat k + 1) by lia.
      rewrite Hnext.
      destruct (phase_total_trials (phase s1) <=? trial_index s1 + 1);
        destruct Hb as (-> & -> & _); reflexivity. }
    rewrite upto_from_succ, !map_app. cbn [map snd].
    rewrite Hp, Hi, Hd, Hrp, Hri, Hrd, <- Hpos. repeat split.
Qed.

End RunFacts.

Section FullSession.

Context {G : Type} `{PyRandom G}.

Lemma Forall_split {A : Type} (P : A -> Prop) (k : nat) (l : list A) :
  Forall P l -> Forall P (firstn k l) /\ Forall P (skipn k l).
Proof.
  intros Hl. rewrite <- (firstn_skipn k l) in Hl.
  apply Forall_app in Hl. exact Hl.
Qed.

(** C4. A session that completes 40 pre-test, 25 training and 40 post-test
    trials appends exactly 105 log rows, one per decision and in the order
    of the decisions; their phase column is 40 times [pre], then 25 times
    [train], then 40 times [post]; the last trial moves the session to
    [done] without drawing a gamble, and no further click on a decision
    or start button changes the finished session. *)
Theorem full_session_log (evs : list (Env G * Event)) (s : SessionState) :
  phase s = pre -> trial_index s = 0 ->
  List.length evs = 105%nat ->
  Forall (fun x => is_decision (snd x) = true) evs ->
  exists s' rows,
    run_events evs s = Ok s'
    /\ logs s' = (logs s ++ rows)%list
    /\ List.length rows = 105%nat
    /\ map row_phase rows = (repeat pre 40 ++ repeat train 25 ++ repeat post 40)%list
    /\ map row_decision rows = map (fun x => decision_label (snd x)) evs
    /\ (forall k : nat, (k <= 105)%nat ->
        exists sk, run_events (firstn k evs) s = Ok sk
                   /\ logs sk = (logs s ++ firstn k rows)%list)
    /\ phase s' = done
    /\ (exists s104,
           run_events (firstn 104 evs) s = Ok s104
           /\ phase s104 = post
           /\ current_gamble s' = current_gamble s104)
    /\ (forall env e, e <> ClickRestart -> on_event env e s' = Ok s').
Proof.
  intros Hph Hidx Hlen Hdec.
  assert (Hstart : (phase s, trial_index s) = position 0)
    by (rewrite Hph, Hidx; reflexivity).
  destruct (trials_from 0 evs s ltac:(lia) Hstart Hdec ltac:(lia))
    as (s' & rows & Hrun & Hlogs & Hlr & Hpos & Hp & _ & Hd).
  rewrite Hlen in *.
  assert (Hdone : phase s' = done) by (inversion Hpos; reflexivity).
  assert (Hprefix : forall k : nat, (k <= 105)%nat ->
             exists sk, run_events (firstn k evs) s = Ok sk
                        /\ logs sk = (logs s ++ firstn k rows)%list
                        /\ (phase sk, trial_index sk) = position (Z.of_nat k)
                        /\ run_events (skipn k evs) sk = Ok s').
  { intros k Hk.
    destruct (Forall_split _ k evs Hdec) as [Hd1 Hd2].
    assert (Hfl : List.length (firstn k evs) = k) by (rewrite length_firstn; lia).
    assert (Hsl : List.length (skipn k evs) = (105 - k)%nat) by (rewrite length_skipn; lia).
    destruct (trials_from 0 (firstn k evs) s ltac:(lia) Hstart Hd1 ltac:(lia))
      as (sk & rk & Hrk & Hlk & Hlrk & Hpk & _).
    rewrite Hfl in *. cbn [Z.add] in Hpk.
    destruct (trials_from (Z.of_nat k) (skipn k evs) sk ltac:(lia) Hpk Hd2 ltac:(lia))
      as (s2 & r2 & Hr2 & Hl2 & _).
    assert (Hwhole : run_events evs s = Ok s2).
    { rewrite <- (firstn_skipn k evs), run_events_app, Hrk. exact Hr2. }
    rewrite Hrun in Hwhole. inversion Hwhole; subst s2.
    exists sk. split; [exact Hrk|]. split; [|split; [exact Hpk|exact Hr2]].
    rewrite Hlk. f_equal.
    rewrite Hlk, <- app_assoc in Hl2. rewrite Hlogs in Hl2.
    apply app_inv_head in Hl2. subst rows.
    rewrite firstn_app, Hlrk, Nat.sub_diag, firstn_O, app_nil_r.
    rewrite <- Hlrk at 1. rewrite firstn_all. reflexivity. }
  exists s', rows.
  split; [exact Hrun|]. split; [exact Hlogs|]. split; [exact Hlr|].
  split; [rewrite Hp; reflexivity|]. split; [exact Hd|].
  split.
  { intros k Hk. destruct (Hprefix k Hk) as (sk & ? & ? & _). eauto. }
  split; [exact Hdone|]. split.
  - destruct (Hprefix 104%nat ltac:(lia)) as (s104 & Hr104 & _ & Hp104 & Hlast).
    exists s104. split; [exact Hr104|].
    change (position (Z.of_nat 104)) with (post, 39) in Hp104.
    pose proof (f_equal fst Hp104) as Hph104. cbn [fst] in Hph104.
    split; [exact Hph104|].
    destruct (skipn 104 evs) as [|[env e] rest] eqn:Hsk.
    + apply (f_equal (@List.length _)) in Hsk. rewrite length_skipn, Hlen in Hsk.
      cbn in Hsk. discriminate.
    + assert (rest = []).
      { apply (f_equal (@List.length _)) in Hsk. rewrite length_skipn, Hlen in Hsk.
        cbn in Hsk. destruct rest; [reflexivity|cbn in Hsk; lia]. }
      subst rest. cbn [run_events] in Hlast.
      assert (He : is_decision e = true).
      { destruct (Forall_split _ 104 evs Hdec) as [_ Hd2].
        rewrite Hsk in Hd2. inversion Hd2; subst. assumption. }
      rewrite on_event_decision in Hlast by (rewrite ?Hph104; auto).
      destruct (handle_step env (decision_label e) s104)
        as (s2 & row & Hh & _ & _ & _ & _ & _ & _ & _ & _ & _ & _ & _ & _ & Hkeep).
      rewrite Hh in Hlast. cbn [rbind] in Hlast. inversion Hlast; subst s2.
      apply Hkeep. rewrite Hdone. reflexivity.
  - intros env e He. unfold on_event. rewrite Hdone.
    destruct e; congruence.
Qed.

End FullSession.

(** ** Reachable sessions *)

Section ReachableFacts.

Context {G : Type} `{PyRandom G}.

Lemma init_state_step (env : Env G) (s : SessionState) :
  init_state env = Ok s ->
  phase s = consent /\ trial_index s = 0 /\ difficulty s = 0
  /\ last_flags s = [] /\ logs s = [].
Proof.
  unfold init_state.
  destruct (sample_mixed_gamble_inv 0 (env_uuid_gamble env) (env_unseeded env))
    as (w & l & g1 & -> & _).
  cbn [rbind]. destruct (int_of_float (env_time env)); cbn [rbind]; [|discriminate].
  intros Hs. inversion Hs; subst. cbn. repeat split.
Qed.

Lemma start_session_step (env : Env G) (s : SessionState) :
  exists g g1,
    start_session env s
    = Ok (mkState (participant_id s) pre 0 0 g (rng_seed s) (logs s) [])
    /\ sample_mixed_gamble 0 (env_uuid_gamble env) (Random (rng_seed s + 0))
       = Ok (g, g1).
Proof.
  unfold start_session, rng. state_simpl.
  destruct (sample_mixed_gamble_inv 0 (env_uuid_gamble env)
              (Random (rng_seed s + 0))) as (w & l & g1 & Hs & _).
  rewrite Hs. state_simpl.
  eexists. eexists. split; reflexivity.
Qed.

(** The four things a click can do. *)
Lemma on_event_cases (env : Env G) (e : Event) (s s' : SessionState) :
  on_event env e s = Ok s' ->
  s' = s
  \/ (phase s = consent /\ start_session env s = Ok s')
  \/ (is_trial_phase (phase s) = true
      /\ handle env (decision_label e) s = Ok s')
  \/ (phase s = done /\ init_state env = Ok s').
Proof.
  unfold on_event. intros He.
  destruct (phase s) eqn:Hp, e; cbn [is_trial_phase decision_label];
    try (inversion He; subst; left; reflexivity); auto.
Qed.

Lemma Phase_eqb_eq (a b : Phase) : Phase_eqb a b = true <-> a = b.
Proof. destruct a, b; cbn; split; intros; congruence. Qed.

Lemma reachable_inv (s : SessionState) :
  reachable s ->
  0 <= difficulty s <= 2
  /\ (phase s <> train -> difficulty s = 0 /\ last_flags s = [])
  /\ (is_trial_phase (phase s) = true ->
      exists uuid4 g g1,
        sample_mixed_gamble (difficulty s) uuid4 g = Ok (current_gamble s, g1)).
Proof.
  induction 1 as [env s Hi|env e s s' Hr IH He].
  - destruct (init_state_step env s Hi) as (Hp & _ & Hd & Hf & _).
    rewrite Hp, Hd, Hf. cbn. repeat split; try lia; discriminate.
  - destruct IH as (Hrange & Hzero & Hgen).
    destruct (on_event_cases env e s s' He)
      as [->|[[Hp Hs]|[[Hp Hh]|[Hp Hi]]]].
    + auto.
    + destruct (start_session_step env s) as (g & g1 & Hs' & Hg).
      rewrite Hs' in Hs. inversion Hs; subst. cbn.
      repeat split; try lia. eauto.
    + destruct (handle_step env (decision_label e) s)
        as (s2 & row & Hh' & _ & _ & _ & _ & _ & _ & _ & _ & Had & Hrg & Hb & Hsm & _).
      cbv zeta in Had, Hb. rewrite Hh' in Hh. inversion Hh; subst s2.
      specialize (Hrg Hrange).
      destruct (phase_total_trials (phase s) <=? trial_index s + 1).
      * destruct Hb as (Hp' & Hi' & Hd' & Hf').
        rewrite Hd', Hf'. split; [lia|]. split; [auto|].
        intros Ht. destruct (Hsm Ht) as (g1 & Hg). rewrite Hd' in Hg. eauto.
      * destruct Hb as (Hp' & Hi' & Hd' & Hf').
        rewrite Hd', Hp'. split; [exact Hrg|]. split.
        -- intros Hnt. specialize (Hzero Hnt).
           destruct (Phase_eqb (phase s) train) eqn:Hpe;
             [apply Phase_eqb_eq in Hpe; contradiction|].
           rewrite Hf', Had. exact Hzero.
        -- intros Ht. rewrite Hp' in Hsm. destruct (Hsm Ht) as (g1 & Hg).
           rewrite Hd' in Hg. eauto.
    + destruct (init_state_step env s' Hi) as (Hp' & _ & Hd & Hf & _).
      rewrite Hp', Hd, Hf. cbn. repeat split; try lia; discriminate.
Qed.

(** C8. In every state a session can reach the difficulty tier lies in
    [0, 2]; outside the training phase it is 0 and the flag history is
    empty, and no click changes it there; in training a decision that is
    not the last one sets it to what [adapt_difficulty] returns.  Every
    phase boundary resets the phase-local state before the next gamble is
    drawn: the decision of the last trial of a phase moves to the next
    phase with trial index 0, tier 0 and an empty flag history, and the
    first gamble of the next trial phase is drawn with tier 0 from the
    generator seeded for trial index 0 (none is drawn when the session
    finishes); [Start] does the same from the consent page; and no click
    changes the phase without these resets. *)
Theorem difficulty_tier_invariant (s : SessionState) :
  reachable s ->
  0 <= difficulty s <= 2
  /\ (phase s <> train -> difficulty s = 0 /\ last_flags s = [])
  /\ (forall (env : Env G) (e : Event) (s' : SessionState),
         on_event env e s = Ok s' ->
         (phase s <> train -> difficulty s' = difficulty s)
         /\ (phase s' <> phase s ->
             trial_index s' = 0 /\ difficulty s' = 0 /\ last_flags s' = []
             /\ (is_trial_phase (phase s') = true ->
                 exists g1,
                   sample_mixed_gamble 0 (env_uuid_gamble env)
                                       (Random (rng_seed s' + 0))
                   = Ok (current_gamble s', g1))))
  /\ (forall (env : Env G) (e : Event),
         is_trial_phase (phase s) = true -> is_decision e = true ->
         trial_index s + 1 = phase_total_trials (phase s) ->
         exists s',
           on_event env e s = Ok s'
           /\ phase s' = next_phase (phase s) /\ phase s' <> phase s
           /\ trial_index s' = 0 /\ difficulty s' = 0 /\ last_flags s' = []
           /\ rng_seed s' = rng_seed s
           /\ (is_trial_phase (phase s') = true ->
               exists g1,
                 sample_mixed_gamble 0 (env_uuid_gamble env)
                                     (Random (rng_seed s + 0))
                 = Ok (current_gamble s', g1))
           /\ (is_trial_phase (phase s') = false ->
               current_gamble s' = current_gamble s))
  /\ (forall env : Env G,
         phase s = consent ->
         exists s' g1,
           on_event env ClickStart s = Ok s'
           /\ phase s' = pre /\ trial_index s' = 0 /\ difficulty s' = 0
           /\ last_flags s' = [] /\ rng_seed s' = rng_seed s
           /\ sample_mixed_gamble 0 (env_uuid_gamble env)
                                  (Random (rng_seed s + 0))
              = Ok (current_gamble s', g1))
  /\ (forall (env : Env G) (e : Event),
         phase s = train -> is_decision e = true ->
         trial_index s + 1 < phase_total_trials (phase s) ->
         exists s',
           on_event env e s = Ok s'
           /\ phase s' = train /\ trial_index s' = trial_index s + 1
           /\ last_flags s'
              = last_n 10 (last_flags s
                           ++ [simple_loss_aversion_flag (current_gamble s)
                                 (decision_label e)])%list
           /\ adapt_difficulty (difficulty s) (last_flags s') = Ok (difficulty s')
           /\ 0 <= difficulty s' <= 2).
Proof.
  intros Hr. destruct (reachable_inv s Hr) as (Hrange & Hzero & _).
  split; [exact Hrange|]. split; [exact Hzero|].
  split; [|split; [|split]].
  - intros env e s' He.
    assert (Hr' : reachable s') by (eapply reach_step; eassumption).
    destruct (reachable_inv s' Hr') as (_ & Hzero' & _).
    destruct (on_event_cases env e s s' He)
      as [->|[[Hp Hs]|[[Hp Hh]|[Hp Hi]]]].
    + split; [reflexivity|]. intros Hne. congruence.
    + destruct (start_session_step env s) as (g & g1 & Hs' & Hg).
      rewrite Hs' in Hs. inversion Hs; subst. cbn.
      split; [intros Hnt; symmetry; apply Hzero, Hnt|].
      intros _. repeat split. eauto.
    + destruct (handle_step env (decision_label e) s)
        as (s2 & row & Hh' & _ & _ & _ & _ & _ & _ & _ & _ & Had & _ & Hb & Hsm & _).
      cbv zeta in Had, Hb. rewrite Hh' in Hh. inversion Hh; subst s2.
      destruct (phase_total_trials (phase s) <=? trial_index s + 1).
      * destruct Hb as (Hp' & Hi' & Hd' & Hf').
        split; [intros Hnt; rewrite Hd'; symmetry; apply Hzero, Hnt|].
        intros _. repeat split; try assumption.
        intros Ht. destruct (Hsm Ht) as (g1 & Hg).
        rewrite Hd', Hi' in Hg. eauto.
      * destruct Hb as (Hp' & Hi' & Hd' & Hf').
        split; [|intros Hne; congruence].
        intros Hnt. rewrite Hd'.
        destruct (Phase_eqb (phase s) train) eqn:Hpe;
          [apply Phase_eqb_eq in Hpe; contradiction|exact Had].
    + destruct (init_state_step env s' Hi) as (Hp' & Hi' & Hd & Hf & _).
      split; [intros Hnt; rewrite Hd; symmetry; apply Hzero, Hnt|].
      intros _. repeat split; try assumption.
      rewrite Hp'. discriminate.
  - intros env e Ht Hdec Hlast.
    rewrite on_event_decision by assumption.
    destruct (handle_step env (decision_label e) s)
      as (s' & row & Hh & _ & _ & _ & _ & _ & _ & _ & Hseed & _ & _ & Hb & Hsm & Hkeep).
    cbv zeta in Hb.
    destruct (Z.leb_spec (phase_total_trials (phase s)) (trial_index s + 1)) as [_|Hlt];
      [|lia].
    destruct Hb as (Hp' & Hi' & Hd' & Hf').
    exists s'. split; [exact Hh|]. split; [exact Hp'|].
    split; [rewrite Hp'; destruct (phase s); discriminate|].
    split; [exact Hi'|]. split; [exact Hd'|]. split; [exact Hf'|].
    split; [exact Hseed|]. split; [|exact Hkeep].
    intros Ht'. destruct (Hsm Ht') as (g1 & Hg).
    rewrite Hd', Hi', Hseed in Hg. eauto.
  - intros env Hp. unfold on_event. rewrite Hp.
    destruct (start_session_step env s) as (g & g1 & Hs & Hg).
    eexists. exists g1. split; [exact Hs|]. cbn. repeat split. exact Hg.
  - intros env e Hp Hdec Hlt.
    rewrite on_event_decision by (rewrite ?Hp; auto).
    destruct (handle_step env (decision_label e) s)
      as (s' & row & Hh & _ & _ & _ & _ & _ & _ & _ & _ & Had & Hrg & Hb & _).
    cbv zeta in Had, Hb. rewrite Hp in Had, Hb. cbn [Phase_eqb] in Had, Hb.
    rewrite Hp in Hlt.
    destruct (Z.leb_spec (phase_total_trials train) (trial_index s + 1)) as [Hge|_];
      [lia|].
    destruct Hb as (Hp' & Hi' & Hd' & Hf').
    exists s'. split; [exact Hh|]. split; [exact Hp'|]. split; [exact Hi'|].
    split; [exact Hf'|]. rewrite Hf', Hd'. split; [exact Had|].
    apply Hrg, Hrange.
Qed.

(** C7, as the code has it. The row a decision appends records the
    session's tier at the moment the row is written: outside training
    that is the tier the gamble was drawn under; in training it is the
    tier [adapt_difficulty] has just produced from this decision's flag. *)
Theorem log_row_difficulty (env : Env G) (decision : string) (s : SessionState) :
  exists s' row,
    handle env decision s = Ok s'
    /\ logs s' = (logs s ++ [row])%list
    /\ (phase s <> train -> row_difficulty row = difficulty s)
    /\ (phase s = train ->
        adapt_difficulty
          (difficulty s)
          (last_n 10 (last_flags s
                      ++ [simple_loss_aversion_flag (current_gamble s) decision])%list)
        = Ok (row_difficulty row)).
Proof.
  destruct (handle_step env decision s)
    as (s' & row & Hh & Hl & _ & _ & _ & _ & _ & _ & _ & Had & _).
  cbv zeta in Had. exists s', row.
  split; [exact Hh|]. split; [exact Hl|].
  destruct (Phase_eqb (phase s) train) eqn:Hpe.
  - apply Phase_eqb_eq in Hpe. split; [contradiction|auto].
  - split; [auto|]. intros Hp. apply Phase_eqb_eq in Hp. congruence.
Qed.

(** C5, as the code has it. The generator for a trial is seeded with
    [rng_seed + trial_index]; two replays from sessions that agree on the
    seed, the phase, the trial index and the difficulty tier reach the same
    phase and trial index and, when a gamble is drawn, draw the same
    probabilities and amounts.  The identifier is not part of the replay:
    each gamble takes it from its own [uuid4]. *)
Theorem replay_same_amounts (env1 env2 : Env G) (s1 s2 : SessionState) :
  rng_seed s1 = rng_seed s2 -> phase s1 = phase s2 ->
  trial_index s1 = trial_index s2 -> difficulty s1 = difficulty s2 ->
  exists s1' s2',
    advance_trial env1 s1 = Ok s1' /\ advance_trial env2 s2 = Ok s2'
    /\ phase s1' = phase s2' /\ trial_index s1' = trial_index s2'
    /\ difficulty s1' = difficulty s2'
    /\ (is_trial_phase (phase s1') = true ->
        p_win (current_gamble s1') = p_win (current_gamble s2')
        /\ win (current_gamble s1') = win (current_gamble s2')
        /\ p_lose (current_gamble s1') = p_lose (current_gamble s2')
        /\ lose (current_gamble s1') = lose (current_gamble s2')
        /\ gamble_id (current_gamble s1') = short_id (env_uuid_gamble env1)
        /\ gamble_id (current_gamble s2') = short_id (env_uuid_gamble env2)
        /\ exists g1,
            sample_mixed_gamble (difficulty s1') (env_uuid_gamble env1)
              (Random (rng_seed s1 + trial_index s1'))
            = Ok (current_gamble s1', g1)).
Proof.
  intros Hseed Hph Hidx Hd.
  destruct (advance_trial_step env1 s1) as (g1 & Ha1 & Hg1 & _).
  destruct (advance_trial_step env2 s2) as (g2 & Ha2 & Hg2 & _).
  cbv zeta in *. rewrite <- Hseed, <- Hph, <- Hidx, <- Hd in *.
  eexists. eexists. split; [exact Ha1|]. split; [exact Ha2|].
  cbn [phase trial_index difficulty current_gamble].
  do 3 (split; [reflexivity|]).
  intros Ht. destruct (Hg1 Ht) as (r1 & Hs1). destruct (Hg2 Ht) as (r2 & Hs2).
  match type of Hs1 with
  | sample_mixed_gamble ?d _ ?g = _ =>
      destruct (sample_mixed_gamble_draw d g) as (w & l & g' & _ & _ & Hdraw)
  end.
  rewrite Hdraw in Hs1, Hs2. inversion Hs1; subst. inversion Hs2; subst.
  cbn [p_win win p_lose lose gamble_id]. repeat split.
  rewrite Hdraw. eauto.
Qed.


End ReachableFacts.

(** ** The properties on concrete inputs *)

Lemma session_initial_init : init_state env_a = Ok session_initial.
Proof. vm_compute. reflexivity. Qed.

Lemma session_started_reachable : reachable session_started.
Proof.
  apply (reach_step env_a ClickStart session_initial).
  - apply (reach_init env_a). exact session_initial_init.
  - vm_compute. reflexivity.
Qed.

Lemma session_train0_run :
  run_events (repeat (env_a, ClickAccept) 40) session_started = Ok session_train0.
Proof. vm_compute. reflexivity. Qed.

(** The examples of the specification for the adapter. *)
Example adapt_difficulty_examples :
  adapt_difficulty 1 flags_6_of_10 = Ok 0
  /\ adapt_difficulty 0 flags_6_of_10 = Ok 0
  /\ adapt_difficulty 1 [] = Ok 1
  /\ adapt_difficulty 2 (repeat "none" 9 ++ ["loss_aversion_possible"])%list = Ok 2.
Proof. vm_compute. repeat split. Qed.

(** The examples of the specification for the classifier. *)
Example simple_loss_aversion_flag_examples :
  simple_loss_aversion_flag
    (mkGamble f0_5 (float_of_Z 20) f0_5 (float_of_Z 10) "a") "reject"
  = "loss_aversion_possible"
  /\ simple_loss_aversion_flag
       (mkGamble f0_5 (float_of_Z 10) f0_5 (float_of_Z 20) "b") "accept"
     = "risk_seeking_or_noise"
  /\ simple_loss_aversion_flag
       (mkGamble f0_5 (float_of_Z 1) f0_5 (float_of_Z 0) "c") "accept"
     = "none".
Proof. vm_compute. repeat split. Qed.

(** The two float literals are the doubles nearest to 3/5 and 1/5: each is
    within half a unit in the last place. *)
Lemma threshold_literals :
  fdiv (float_of_Z 6) (float_of_Z 10) = f0_6
  /\ fdiv (float_of_Z 2) (float_of_Z 10) = f0_2
  /\ Z.abs (10 * 5404319552844595 - 6 * 2 ^ 53) <= 5
  /\ Z.abs (10 * 7205759403792794 - 2 * 2 ^ 55) <= 5.
Proof. vm_compute. repeat split; discriminate. Qed.

Lemma adapt_difficulty_spec_witness :
  Z.of_nat (List.length flags_6_of_10) < 2 ^ 51
  /\ adapt_difficulty 1 flags_6_of_10 = Ok (Z.max 0 (1 - 1)).
Proof.
  assert (Hlen : Z.of_nat (List.length flags_6_of_10) < 2 ^ 51) by reflexivity.
  split; [exact Hlen|].
  apply (proj2 (proj2 (adapt_difficulty_spec 1 flags_6_of_10)) Hlen).
  - discriminate.
  - apply Qle_bool_imp_le. reflexivity.
Defined.

Lemma sample_mixed_gamble_in_tier_witness :
  0 <= 1 <= 2
  /\ exists gam g' w l,
      sample_mixed_gamble 1 "7c9e6679-7425-40de-944b-e07fc1f90ae7" (Random 7) = Ok (gam, g')
      /\ has_value (win gam) (inject_Z w) /\ has_value (lose gam) (inject_Z l)
      /\ In w [10; 12; 14; 16; 18; 20; 22] /\ In l [8; 10; 12; 14; 16; 18].
Proof.
  assert (Hd : 0 <= 1 <= 2) by lia.
  split; [exact Hd|].
  destruct (sample_mixed_gamble_in_tier
              1 "7c9e6679-7425-40de-944b-e07fc1f90ae7" (Random 7) Hd)
    as (gam & g' & w & l & Hs & _ & _ & Hw & Hl & _ & _ & _ & _ & _ & H1 & _).
  exists gam, g', w, l. destruct (H1 eq_refl) as [Hiw Hil]. auto.
Defined.

Lemma full_session_log_witness :
  exists s' rows,
    run_events accept_clicks session_started = Ok s'
    /\ logs s' = (logs session_started ++ rows)%list
    /\ List.length rows = 105%nat
    /\ phase s' = done.
Proof.
  assert (Hdec : Forall (fun x : Env Z * Event => is_decision (snd x) = true)
                        accept_clicks)
    by (unfold accept_clicks; apply Forall_forall; intros x Hx;
        apply repeat_spec in Hx; subst x; reflexivity).
  destruct (full_session_log accept_clicks session_started
              eq_refl eq_refl eq_refl Hdec)
    as (s' & rows & Hr & Hl & Hn & _ & _ & _ & Hp & _).
  exists s', rows. auto.
Defined.

Lemma replay_same_amounts_witness :
  exists s1 s2,
    advance_trial env_a session_started = Ok s1
    /\ advance_trial env_b session_started = Ok s2
    /\ (is_trial_phase (phase s1) = true ->
        win (current_gamble s1) = win (current_gamble s2)
        /\ lose (current_gamble s1) = lose (current_gamble s2)).
Proof.
  destruct (replay_same_amounts env_a env_b session_started session_started
              eq_refl eq_refl eq_refl eq_refl)
    as (s1 & s2 & H1 & H2 & _ & _ & _ & Hg).
  exists s1, s2. split; [exact H1|]. split; [exact H2|].
  intros Ht. destruct (Hg Ht) as (_ & Hw & _ & Hl & _). auto.
Defined.

(** C5, counterexample. Two replays of the same trial, from the
    same session state (same seed, phase, trial index and tier), produce
    gambles with the same amounts and different identifiers. *)
Lemma replay_identifier_differs :
  exists s1 s2,
    advance_trial env_a session_started = Ok s1
    /\ advance_trial env_b session_started = Ok s2
    /\ win (current_gamble s1) = win (current_gamble s2)
    /\ lose (current_gamble s1) = lose (current_gamble s2)
    /\ gamble_id (current_gamble s1) = "7c9e6679"
    /\ gamble_id (current_gamble s2) = "16fd2706"
    /\ current_gamble s1 <> current_gamble s2.
Proof.
  eexists. eexists.
  split; [vm_compute; reflexivity|]. split; [vm_compute; reflexivity|].
  cbn [current_gamble win lose gamble_id].
  repeat split. discriminate.
Qed.


(** C7, counterexample. At the first training trial the gamble
    on screen was drawn under tier 0, which is also the session's tier when
    the participant decides; the row appended for that decision records
    tier 1, the tier the adaptation has just produced. *)
Lemma logged_tier_is_adapted_tier :
  exists s' row g1,
    reachable session_train0
    /\ phase session_train0 = train
    /\ difficulty session_train0 = 0
    /\ sample_mixed_gamble 0 (env_uuid_gamble env_a)
         (Random (rng_seed session_train0 + trial_index session_train0))
       = Ok (current_gamble session_train0, g1)
    /\ on_event env_a ClickAccept session_train0 = Ok s'
    /\ logs s' = (logs session_train0 ++ [row])%list
    /\ row_gamble_id row = gamble_id (current_gamble session_train0)
    /\ row_difficulty row = 1.
Proof.
  eexists. eexists. eexists.
  split.
  { assert (Hgen : forall evs s s', reachable s -> run_events evs s = Ok s' ->
                                    reachable s').
    { induction evs as [|[env e] evs IH]; intros s s' Hs Hr; cbn [run_events] in Hr.
      - inversion Hr; subst; exact Hs.
      - destruct (on_event env e s) as [s1|x] eqn:He; cbn [rbind] in Hr; [|discriminate].
        eapply IH; [|exact Hr]. eapply reach_step; eassumption. }
    exact (Hgen _ _ _ session_started_reachable session_train0_run). }
  split; [reflexivity|]. split; [reflexivity|].
  split; [vm_compute; reflexivity|].
  split; [vm_compute; reflexivity|].
  split; [vm_compute; reflexivity|].
  split; reflexivity.
Qed.

(** ** The session invariant *)

Section InvariantFacts.

Context {G : Type} `{PyRandom G}.

Lemma last_n_length {A : Type} (k : nat) (l : list A) :
  List.length (last_n k l) = Nat.min k (List.length l).
Proof. unfold last_n. rewrite length_skipn. lia. Qed.



(** [handle], in full: the state it returns. *)
Lemma handle_full (env : Env G) (decision : string) (s : SessionState) :
  let g := current_gamble s in
  let flag := simple_loss_aversion_flag g decision in
  let fl := if Phase_eqb (phase s) train
            then last_n 10 (last_flags s ++ [flag])%list
            else last_flags s in
  let boundary := phase_total_trials (phase s) <=? trial_index s + 1 in
  exists d g',
    (if Phase_eqb (phase s) train
     then adapt_difficulty (difficulty s) fl = Ok d
     else d = difficulty s)
    /\ (0 <= difficulty s <= 2 -> 0 <= d <= 2)
    /\ handle env decision s
       = Ok (mkState
               (participant_id s)
               (if boundary then next_phase (phase s) else phase s)
               (if boundary then 0 else trial_index s + 1)
               (if boundary then 0 else d)
               g' (rng_seed s)
               (logs s
                ++ [mkRow (participant_id s) (phase s) (trial_index s)
                      (gamble_id g) (p_win g) (win g) (p_lose g) (lose g) (ev g)
                      decision flag d])
               (if boundary then [] else fl))
    /\ (is_trial_phase (if boundary then next_phase (phase s) else phase s) = true ->
        exists g1,
          sample_mixed_gamble
            (if boundary then 0 else d) (env_uuid_gamble env)
            (Random (rng_seed s + (if boundary then 0 else trial_index s + 1)))
          = Ok (g', g1))
    /\ (is_trial_phase (if boundary then next_phase (phase s) else phase s) = false ->
        g' = g).
Proof.
  cbv zeta. unfold handle, log_decision.
  set (flag := simple_loss_aversion_flag (current_gamble s) decision).
  destruct (Phase_eqb (phase s) train) eqn:Hph.
  - state_simpl.
    destruct (adapt_difficulty_total (difficulty s)
                (last_n 10 (last_flags s ++ [flag])%list)) as (d & Hd & Hrange).
    rewrite Hd. state_simpl.
    match goal with
    | |- context [advance_trial env ?st] =>
        destruct (advance_trial_step env st) as (g' & Ha & Hg1 & Hg2)
    end.
    cbv zeta in Ha, Hg1, Hg2. state_simpl.
    exists d, g'. split; [reflexivity|]. split; [exact Hrange|].
    split; [exact Ha|]. split; assumption.
  - state_simpl.
    match goal with
    | |- context [advance_trial env ?st] =>
        destruct (advance_trial_step env st) as (g' & Ha & Hg1 & Hg2)
    end.
    cbv zeta in Ha, Hg1, Hg2. state_simpl.
    exists (difficulty s), g'. split; [reflexivity|]. split; [auto|].
    split; [exact Ha|]. split; assumption.
Qed.

(** The clicks, with the button that was clicked. *)
Lemma on_event_clicks (env : Env G) (e : Event) (s s' : SessionState) :
  on_event env e s = Ok s' ->
  s' = s
  \/ (phase s = consent /\ e = ClickStart /\ start_session env s = Ok s')
  \/ (is_trial_phase (phase s) = true /\ is_decision e = true
      /\ handle env (decision_label e) s = Ok s')
  \/ (phase s = done /\ e = ClickRestart /\ init_state env = Ok s').
Proof.
  unfold on_event. intros He.
  destruct (phase s) eqn:Hp, e; cbn [is_trial_phase decision_label is_decision];
    try (inversion He; subst; left; reflexivity); auto 8.
Qed.

Lemma position_completed (s : SessionState) :
  is_trial_phase (phase s) = true ->
  0 <= trial_index s < phase_total_trials (phase s) ->
  position (completed s) = (phase s, trial_index s)
  /\ 0 <= completed s < 105.
Proof.
  unfold completed, position.
  destruct (phase s); cbn [is_trial_phase phase_total_trials];
    unfold N_PRE, N_TRAIN, N_POST; try discriminate; intros _ Hi.
  all: repeat match goal with
         | |- context [Z.ltb ?a ?b] => destruct (Z.ltb_spec a b); try lia
         end.
  all: split; [f_equal; lia|lia].
Qed.

Lemma row_ok_same (s s' : SessionState) (r : LogRow) :
  participant_id s' = participant_id s -> rng_seed s' = rng_seed s ->
  row_ok s r -> row_ok s' r.
Proof. unfold row_ok. intros -> ->. auto. Qed.

Lemma session_ok_init (env : Env G) (s : SessionState) :
  init_state env = Ok s -> session_ok s.
Proof.
  unfold init_state.
  destruct (sample_mixed_gamble_inv 0 (env_uuid_gamble env) (env_unseeded env))
    as (w & l & g1 & -> & _).
  cbn [rbind]. destruct (int_of_float (env_time env)); cbn [rbind]; [|discriminate].
  intros Hs. inversion Hs; subst. unfold session_ok, completed. cbn.
  repeat split; try lia; try discriminate. constructor.
Qed.

Lemma session_ok_step (env : Env G) (e : Event) (s s' : SessionState) :
  session_ok s -> on_event env e s = Ok s' -> session_ok s'.
Proof.
  intros Hok He.
  destruct (on_event_clicks env e s s' He)
    as [->|[(Hph & _ & Hs)|[(Hph & Hdec & Hh)|(Hph & _ & Hinit)]]];
    [exact Hok| | |];
    destruct Hok as (Hd & Hz & Hw & Hi & Hg & Hp & Hr).
  - (* Start *)
    destruct (start_session_step env s) as (g & g1 & Hs' & Hsm).
    rewrite Hs' in Hs. inversion Hs; subst s'. clear Hs.
    unfold completed in Hp. rewrite Hph in Hp. cbn in Hp.
    apply map_eq_nil in Hp.
    unfold session_ok, completed, drawn_at. cbn.
    rewrite Hp. repeat split; try lia; try discriminate; eauto.
  - (* a decision *)
    destruct (handle_full env (decision_label e) s)
      as (d & g' & Hdd & Hdr & Hh' & Hg1 & Hg2).
    cbv zeta in *. rewrite Hh' in Hh. inversion Hh; subst s'. clear Hh Hh'.
    rewrite Hph in Hi. specialize (Hdr Hd). specialize (Hg Hph).
    destruct (position_completed s Hph Hi) as [Hpos Hc].
    assert (Hfl : (List.length
                     (if Phase_eqb (phase s) train
                      then last_n 10 (last_flags s
                             ++ [simple_loss_aversion_flag (current_gamble s)
                                   (decision_label e)])%list
                      else last_flags s) <= 10)%nat).
    { destruct (Phase_eqb (phase s) train); [rewrite last_n_length; lia|exact Hw]. }
    assert (Hnt : phase s <> train ->
                  d = 0 /\ (if Phase_eqb (phase s) train
                            then last_n 10 (last_flags s
                                   ++ [simple_loss_aversion_flag (current_gamble s)
                                         (decision_label e)])%list
                            else last_flags s) = []).
    { intros Hn. destruct (Hz Hn) as [Hd0 Hf0].
      destruct (Phase_eqb (phase s) train) eqn:Hpe;
        [apply Phase_eqb_eq in Hpe; contradiction|].
      split; [congruence|exact Hf0]. }
    assert (Hrow : row_ok s
              (mkRow (participant_id s) (phase s) (trial_index s)
                 (gamble_id (current_gamble s)) (p_win (current_gamble s))
                 (win (current_gamble s)) (p_lose (current_gamble s))
                 (lose (current_gamble s)) (ev (current_gamble s))
                 (decision_label e)
                 (simple_loss_aversion_flag (current_gamble s) (decision_label e)) d)).
    { unfold row_ok, row_gamble. cbn.
      assert (Hcg : {| p_win := p_win (current_gamble s);
                       win := win (current_gamble s);
                       p_lose := p_lose (current_gamble s);
                       lose := lose (current_gamble s);
                       gamble_id := gamble_id (current_gamble s) |}
                    = current_gamble s) by (destruct (current_gamble s); reflexivity).
      rewrite Hcg.
      split; [reflexivity|].
      split; [destruct e; cbn in Hdec |- *; try discriminate; auto|].
      split; [reflexivity|]. split; [reflexivity|]. split; [exact Hdr|].
      split; [intros Hn; apply Hnt, Hn|].
      exists (difficulty s). split; [exact Hd|].
      split; [intros Hn; apply Hz, Hn|exact Hg]. }
    assert (Hposn : forall ph' i',
               position (completed s + 1) = (ph', i') ->
               map (fun r => (row_phase r, row_trial_in_phase r))
                   (logs s
                    ++ [mkRow (participant_id s) (phase s) (trial_index s)
                          (gamble_id (current_gamble s)) (p_win (current_gamble s))
                          (win (current_gamble s)) (p_lose (current_gamble s))
                          (lose (current_gamble s)) (ev (current_gamble s))
                          (decision_label e)
                          (simple_loss_aversion_flag (current_gamble s)
                             (decision_label e)) d])
               = map position (upto_from 0 (Z.to_nat (completed s + 1)))).
    { intros ph' i' _.
      replace (Z.to_nat (completed s + 1)) with (S (Z.to_nat (completed s))) by lia.
      rewrite upto_from_succ, !map_app, Hp. cbn [map row_phase row_trial_in_phase].
      rewrite Z.add_0_l, Z2Nat.id by lia. rewrite Hpos. reflexivity. }
    destruct (position_succ (completed s) Hc) as [_ Hnext].
    rewrite Hpos in Hnext. cbn [fst snd] in Hnext.
    unfold session_ok.
    destruct (phase_total_trials (phase s) <=? trial_index s + 1) eqn:Hb.
    + (* the last trial of the phase *)
      apply Z.leb_le in Hb.
      assert (Hcn : completed
                      (mkState (participant_id s) (next_phase (phase s)) 0 0 g'
                         (rng_seed s)
                         (logs s
                          ++ [mkRow (participant_id s) (phase s) (trial_index s)
                                (gamble_id (current_gamble s)) (p_win (current_gamble s))
                                (win (current_gamble s)) (p_lose (current_gamble s))
                                (lose (current_gamble s)) (ev (current_gamble s))
                                (decision_label e)
                                (simple_loss_aversion_flag (current_gamble s)
                                   (decision_label e)) d]) [])
                    = completed s + 1).
      { unfold completed. cbn [phase trial_index].
        destruct (phase s); cbn [next_phase is_trial_phase phase_total_trials] in *;
          unfold N_PRE, N_TRAIN, N_POST in *; try discriminate; lia. }
      rewrite Hcn. cbn [phase trial_index difficulty last_flags logs
                        current_gamble rng_seed participant_id].
      split; [lia|]. split; [auto|]. split; [cbn; lia|].
      split.
      { destruct (phase s); cbn [next_phase is_trial_phase phase_total_trials] in *;
          unfold N_PRE, N_TRAIN, N_POST; try discriminate; lia. }
      split.
      { intros Ht. destruct (Hg1 Ht) as (g1 & Hs1). unfold drawn_at. eauto. }
      split; [eapply Hposn; exact Hnext|].
      apply Forall_app. split.
      * eapply Forall_impl; [|exact Hr]. intros r. apply row_ok_same; reflexivity.
      * constructor; [|constructor]. revert Hrow. apply row_ok_same; reflexivity.
    + (* within the phase *)
      apply Z.leb_gt in Hb.
      assert (Hcn : completed
                      (mkState (participant_id s) (phase s) (trial_index s + 1) d g'
                         (rng_seed s)
                         (logs s
                          ++ [mkRow (participant_id s) (phase s) (trial_index s)
                                (gamble_id (current_gamble s)) (p_win (current_gamble s))
                                (win (current_gamble s)) (p_lose (current_gamble s))
                                (lose (current_gamble s)) (ev (current_gamble s))
                                (decision_label e)
                                (simple_loss_aversion_flag (current_gamble s)
                                   (decision_label e)) d])
                         (if Phase_eqb (phase s) train
                          then last_n 10 (last_flags s
                                 ++ [simple_loss_aversion_flag (current_gamble s)
                                       (decision_label e)])%list
                          else last_flags s))
                    = completed s + 1).
      { unfold completed. cbn [phase trial_index]. destruct (phase s); try discriminate; lia. }
      rewrite Hcn. cbn [phase trial_index difficulty last_flags logs
                        current_gamble rng_seed participant_id].
      split; [exact Hdr|]. split; [exact Hnt|]. split; [exact Hfl|].
      split; [rewrite Hph; lia|].
      split.
      { intros Ht. destruct (Hg1 Ht) as (g1 & Hs1). unfold drawn_at. eauto. }
      split; [eapply Hposn; exact Hnext|].
      apply Forall_app. split.
      * eapply Forall_impl; [|exact Hr]. intros r. apply row_ok_same; reflexivity.
      * constructor; [|constructor]. revert Hrow. apply row_ok_same; reflexivity.
  - exact (session_ok_init env s' Hinit).
Qed.

Lemma reachable_ok (s : SessionState) : reachable s -> session_ok s.
Proof.
  induction 1 as [env s Hi|env e s s' _ IH He].
  - exact (session_ok_init env s Hi).
  - exact (session_ok_step env e s s' IH He).
Qed.

End InvariantFacts.

(** ** Consequences of the invariant *)

Lemma position_range (i : Z) :
  0 <= i < 105 ->
  is_trial_phase (fst (position i)) = true
  /\ 0 <= snd (position i) < phase_total_trials (fst (position i)).
Proof.
  intros Hi. unfold position.
  repeat match goal with
    | |- context [Z.ltb ?a ?b] => destruct (Z.ltb_spec a b); try lia
    end;
    cbn [fst snd is_trial_phase phase_total_trials];
    unfold N_PRE, N_TRAIN, N_POST; split; try reflexivity; lia.
Qed.

Section InvariantUses.

Context {G : Type} `{PyRandom G}.

Lemma reachable_run (evs : list (Env G * Event)) (s s' : SessionState) :
  reachable s -> run_events evs s = Ok s' -> reachable s'.
Proof.
  revert s. induction evs as [|[env e] evs IH]; intros s Hs Hr; cbn [run_events] in Hr.
  - inversion Hr; subst; exact Hs.
  - destruct (on_event env e s) as [s1|x] eqn:He; cbn [rbind] in Hr; [|discriminate].
    eapply IH; [|exact Hr]. eapply reach_step; eassumption.
Qed.

Lemma completed_range (s : SessionState) :
  session_ok s -> 0 <= completed s <= 105.
Proof.
  intros (_ & _ & _ & Hi & _). unfold completed.
  destruct (phase s); cbn [is_trial_phase phase_total_trials] in Hi;
    unfold N_PRE, N_TRAIN, N_POST in Hi; lia.
Qed.


(** X2. The log holds exactly one row per completed trial, in order: its
    phase and trial columns are the positions 0, 1, ... of the session
    (pre-test 0..39, training 0..24, post-test 0..39) up to the number of
    completed trials; it is empty on the consent page and has 105 rows once
    the session is finished. *)
Theorem log_follows_positions (s : SessionState) :
  reachable s ->
  Z.of_nat (List.length (logs s)) = completed s
  /\ map (fun r => (row_phase r, row_trial_in_phase r)) (logs s)
     = map position (upto_from 0 (Z.to_nat (completed s)))
  /\ (phase s = consent -> logs s = [])
  /\ (phase s = done -> List.length (logs s) = 105%nat).
Proof.
  intros Hr. pose proof (reachable_ok s Hr) as Hok.
  pose proof (completed_range s Hok) as Hc.
  destruct Hok as (_ & _ & _ & _ & _ & Hp & _).
  assert (Hlen : Z.of_nat (List.length (logs s)) = completed s).
  { apply (f_equal (@List.length _)) in Hp.
    rewrite !length_map in Hp. unfold upto_from in Hp.
    rewrite length_map, length_seq in Hp. lia. }
  split; [exact Hlen|]. split; [exact Hp|]. split.
  - intros Hph. unfold completed in Hlen. rewrite Hph in Hlen.
    destruct (logs s); [reflexivity|cbn in Hlen; lia].
  - intros Hph. unfold completed in Hlen. rewrite Hph in Hlen. lia.
Qed.

(** X3. The trial index stays inside the phase: in a trial phase it is at
    least 0 and below the phase's trial count, and it is 0 on the consent
    and finished pages. *)
Theorem trial_index_in_phase (s : SessionState) :
  reachable s ->
  if is_trial_phase (phase s)
  then 0 <= trial_index s < phase_total_trials (phase s)
  else trial_index s = 0.
Proof.
  intros Hr. destruct (reachable_ok s Hr) as (_ & _ & _ & Hi & _). exact Hi.
Qed.

(** X4. Every row of the log is consistent: it carries the session's
    participant id, a trial phase and a trial index inside it, a decision
    that is [accept] or [reject], the flag and the expected value computed
    from its own gamble columns, probabilities 0.5, a tier in [0, 2], and
    amounts from the documented sets; a pre-test or post-test row has
    tier 0 and tier-0 amounts. *)
Theorem log_rows_consistent (s : SessionState) (r : LogRow) :
  reachable s -> In r (logs s) ->
  row_participant_id r = participant_id s
  /\ is_trial_phase (row_phase r) = true
  /\ 0 <= row_trial_in_phase r < phase_total_trials (row_phase r)
  /\ (row_decision r = "accept" \/ row_decision r = "reject")
  /\ row_flag r = simple_loss_aversion_flag (row_gamble r) (row_decision r)
  /\ row_ev r = ev (row_gamble r)
  /\ row_p_win r = f0_5 /\ row_p_lose r = f0_5
  /\ 0 <= row_difficulty r <= 2
  /\ exists w l,
      row_win r = float_of_Z w /\ row_lose r = float_of_Z l
      /\ In w amounts /\ In l amounts
      /\ (row_phase r <> train ->
          row_difficulty r = 0
          /\ In w [6; 8; 10; 12; 14; 16] /\ In l [4; 6; 8; 10; 12]).
Proof.
  intros Hr Hin. pose proof (reachable_ok s Hr) as Hok.
  pose proof (completed_range s Hok) as Hc.
  destruct Hok as (_ & _ & _ & _ & _ & Hp & Hrows).
  rewrite Forall_forall in Hrows.
  destruct (Hrows r Hin) as (Hpid & Hdec & Hflag & Hev & Hd & Hd0 & dg & Hdg & Hdg0 & Hdrawn).
  assert (Hpos : exists i, 0 <= i < 105 /\ position i = (row_phase r, row_trial_in_phase r)).
  { apply (in_map (fun r => (row_phase r, row_trial_in_phase r))) in Hin.
    rewrite Hp in Hin. apply in_map_iff in Hin. destruct Hin as (i & Hi & Hin).
    unfold upto_from in Hin. apply in_map_iff in Hin. destruct Hin as (k & <- & Hk).
    apply in_seq in Hk. exists (0 + Z.of_nat k). split; [lia|exact Hi]. }
  destruct Hpos as (i & Hi & Hpi).
  destruct (position_range i Hi) as [Htp Hti]. rewrite Hpi in Htp, Hti.
  cbn [fst snd] in Htp, Hti.
  destruct Hdrawn as (uuid4 & g1 & Hs).
  destruct (sample_mixed_gamble_inv dg uuid4
              (Random (rng_seed s + row_trial_in_phase r)))
    as (w & l & g2 & Hs' & Hw & Hl).
  rewrite Hs' in Hs. inversion Hs as [[Hpw Hwin Hpl Hlose Hid]].
  destruct (tier_amounts dg w l Hw Hl) as [Haw Hal].
  do 6 (split; [assumption|]).
  split; [congruence|]. split; [congruence|].
  split; [exact Hd|].
  exists w, l. split; [congruence|]. split; [congruence|].
  split; [exact Haw|]. split; [exact Hal|].
  intros Hn. split; [apply Hd0, Hn|].
  rewrite (Hdg0 Hn) in Hw, Hl. split; assumption.
Qed.


(** X6. The post-test repeats the pre-test gamble for gamble: the generator
    is reseeded with [rng_seed + trial_index] and the tier is 0 in both
    phases, so two rows logged outside training with the same trial index
    have the same probabilities, amounts and expected value. *)
Theorem same_trial_same_gamble (s : SessionState) (r1 r2 : LogRow) :
  reachable s -> In r1 (logs s) -> In r2 (logs s) ->
  row_phase r1 <> train -> row_phase r2 <> train ->
  row_trial_in_phase r1 = row_trial_in_phase r2 ->
  row_p_win r1 = row_p_win r2 /\ row_win r1 = row_win r2
  /\ row_p_lose r1 = row_p_lose r2 /\ row_lose r1 = row_lose r2
  /\ row_ev r1 = row_ev r2.
Proof.
  intros Hr H1 H2 Hn1 Hn2 Hidx.
  destruct (reachable_ok s Hr) as (_ & _ & _ & _ & _ & _ & Hrows).
  rewrite Forall_forall in Hrows.
  destruct (Hrows r1 H1) as (_ & _ & _ & Hev1 & _ & _ & d1 & _ & Hd1 & u1 & g1 & Hs1).
  destruct (Hrows r2 H2) as (_ & _ & _ & Hev2 & _ & _ & d2 & _ & Hd2 & u2 & g2 & Hs2).
  rewrite (Hd1 Hn1) in Hs1. rewrite (Hd2 Hn2), <- Hidx in Hs2.
  destruct (sample_mixed_gamble_draw 0 (Random (rng_seed s + row_trial_in_phase r1)))
    as (w & l & g' & _ & _ & Hdraw).
  rewrite Hdraw in Hs1, Hs2.
  inversion Hs1 as [[Hpw1 Hw1 Hpl1 Hl1 Hid1]].
  inversion Hs2 as [[Hpw2 Hw2 Hpl2 Hl2 Hid2]].
  rewrite Hev1, Hev2. unfold ev, row_gamble. cbn [p_win win p_lose lose].
  rewrite <- Hpw1, <- Hpw2, <- Hw1, <- Hw2, <- Hpl1, <- Hpl2, <- Hl1, <- Hl2.
  repeat split.
Qed.

(** X10. In every trial state a session can reach, the gamble on screen is
    the one [sample_mixed_gamble] draws at the session's current tier from
    the generator seeded with [rng_seed + trial_index]; in pre-test and
    post-test its amounts therefore come from the tier-0 sets. *)
Theorem current_gamble_drawn (s : SessionState) :
  reachable s -> is_trial_phase (phase s) = true ->
  exists (uuid4 : string) (g1 : G) (w l : Z),
    sample_mixed_gamble (difficulty s) uuid4 (Random (rng_seed s + trial_index s))
    = Ok (current_gamble s, g1)
    /\ current_gamble s
       = mkGamble f0_5 (float_of_Z w) f0_5 (float_of_Z l) (short_id uuid4)
    /\ In w amounts /\ In l amounts
    /\ (phase s <> train ->
        In w [6; 8; 10; 12; 14; 16] /\ In l [4; 6; 8; 10; 12]).
Proof.
  intros Hr Ht. destruct (reachable_ok s Hr) as (_ & Hz & _ & _ & Hg & _).
  destruct (Hg Ht) as (uuid4 & g1 & Hs).
  destruct (sample_mixed_gamble_inv (difficulty s) uuid4
              (Random (rng_seed s + trial_index s)))
    as (w & l & g2 & Hs' & Hw & Hl).
  assert (Hcg : current_gamble s
                = mkGamble f0_5 (float_of_Z w) f0_5 (float_of_Z l) (short_id uuid4))
    by congruence.
  destruct (tier_amounts _ w l Hw Hl) as [Haw Hal].
  exists uuid4, g1, w, l.
  split; [exact Hs|]. split; [exact Hcg|].
  split; [exact Haw|]. split; [exact Hal|].
  intros Hn. destruct (Hz Hn) as [Hd0 _]. rewrite Hd0 in Hw, Hl. auto.
Qed.

End InvariantUses.

(** ** The adapter inside the training loop *)

(** X7. From a tier in [0, 2] the adapter answers with a tier in [0, 2] that
    differs from the old one by at most one, whatever the list. *)
Theorem adapt_difficulty_one_step (current : Z) (flags : list string) :
  0 <= current <= 2 ->
  exists t,
    adapt_difficulty current flags = Ok t
    /\ 0 <= t <= 2 /\ Z.abs (t - current) <= 1.
Proof.
  intros Hc. unfold adapt_difficulty. destruct flags as [|f fs].
  - exists current. split; [reflexivity|lia].
  - unfold int_true_div.
    destruct (Z.eqb_spec (Z.of_nat (List.length (f :: fs))) 0) as [Hz|_];
      [cbn [List.length] in Hz; lia|].
    cbn [rbind].
    destruct (fge _ f0_6); [eexists; split; [reflexivity|lia]|].
    destruct (fle _ f0_2); eexists; (split; [reflexivity|lia]).
Qed.

Section TrainingStep.

Context {G : Type} `{PyRandom G}.

(** X8. A training decision changes the tier by the exact rule on the
    window of the last 10 flags, this decision's flag included: with [la]
    flagged entries out of [n], the tier goes down one (not below 0) when
    [la / n >= 3/5], up one (not above 2) when [la / n <= 1/5], and stays
    otherwise.  The window never exceeds 10 entries, so the float
    comparisons of the code decide the exact ones.  The row logs the new
    tier, and the session keeps it unless the phase ends. *)
Theorem training_step_exact (env : Env G) (decision : string) (s : SessionState) :
  phase s = train ->
  let flag := simple_loss_aversion_flag (current_gamble s) decision in
  let w := last_n 10 (last_flags s ++ [flag])%list in
  let la := count_la w in
  let n := Z.of_nat (List.length w) in
  exists s' row,
    handle env decision s = Ok s'
    /\ logs s' = (logs s ++ [row])%list
    /\ 0 < n <= 10 /\ 0 <= la <= n
    /\ row_difficulty row
       = (if 3 * n <=? 5 * la then Z.max 0 (difficulty s - 1)
          else if 5 * la <=? n then Z.min 2 (difficulty s + 1)
          else difficulty s)
    /\ (trial_index s + 1 < N_TRAIN ->
        difficulty s' = row_difficulty row /\ last_flags s' = w)
    /\ (N_TRAIN <= trial_index s + 1 ->
        phase s' = post /\ difficulty s' = 0 /\ last_flags s' = []).
Proof.
  intros Hph. cbv zeta.
  set (flag := simple_loss_aversion_flag (current_gamble s) decision).
  set (w := last_n 10 (last_flags s ++ [flag])%list).
  assert (Hlen : (0 < List.length w <= 10)%nat).
  { subst w. rewrite last_n_length, length_app. cbn [List.length]. lia. }
  assert (Hne : w <> []) by (destruct w; [cbn in Hlen; lia|discriminate]).
  destruct (handle_full env decision s) as (d & g' & Hd & _ & Hh & _).
  cbv zeta in Hd, Hh. rewrite Hph in Hd, Hh. cbn [Phase_eqb] in Hd, Hh.
  fold flag in Hd, Hh. fold w in Hd, Hh.
  rewrite adapt_difficulty_eq in Hd
    by (try exact Hne; change (2 ^ 51) with 2251799813685248; lia).
  injection Hd as Hrule.
  eexists. eexists. split; [exact Hh|].
  cbn [logs row_difficulty difficulty last_flags phase].
  split; [reflexivity|]. split; [lia|]. split; [apply count_la_range|].
  split; [symmetry; exact Hrule|].
  cbn [phase_total_trials next_phase]. split.
  - intros Hlt. destruct (Z.leb_spec N_TRAIN (trial_index s + 1)); [lia|].
    split; reflexivity.
  - intros Hge. destruct (Z.leb_spec N_TRAIN (trial_index s + 1)); [|lia].
    repeat split.
Qed.

(** X9. For a generated gamble with win amount [w] and loss amount [l] the
    classifier reads as integer conditions: [loss_aversion_possible]
    exactly for a rejected gamble with [w - l >= 4], [risk_seeking_or_noise]
    exactly for an accepted gamble with [l - w >= 4], and [none] in every
    other case. *)
Theorem flag_of_generated_gamble (d : Z) (uuid4 : string) (g : G) :
  exists gam g' w l,
    sample_mixed_gamble d uuid4 g = Ok (gam, g')
    /\ win gam = float_of_Z w /\ lose gam = float_of_Z l
    /\ forall decision : string,
        (simple_loss_aversion_flag gam decision = "loss_aversion_possible"
         <-> 4 <= w - l /\ decision = "reject")
        /\ (simple_loss_aversion_flag gam decision = "risk_seeking_or_noise"
            <-> 4 <= l - w /\ decision = "accept")
        /\ (simple_loss_aversion_flag gam decision = "none"
            <-> ~ (4 <= w - l /\ decision = "reject")
                /\ ~ (4 <= l - w /\ decision = "accept")).
Proof.
  destruct (sample_mixed_gamble_inv d uuid4 g) as (w & l & g' & Hs & Hw & Hl).
  destruct (tier_amounts d w l Hw Hl) as [Haw Hal].
  destruct (ev_thresholds_of_amounts w l (short_id uuid4) Haw Hal) as [Hge Hle].
  cbv zeta in Hge, Hle.
  eexists. exists g', w, l. split; [exact Hs|].
  cbn [win lose]. split; [reflexivity|]. split; [reflexivity|].
  intros decision. unfold simple_loss_aversion_flag. rewrite Hge, Hle.
  destruct (Z.leb_spec 4 (w - l)); destruct (Z.leb_spec (w - l) (-4));
    destruct (String.eqb_spec decision "reject") as [Hr|Hr];
    destruct (String.eqb_spec decision "accept") as [Ha|Ha];
    cbn [andb];
    try (exfalso; subst decision; discriminate); try lia.
  all: intuition (try discriminate; try congruence; try lia).
  all: exfalso;
    match goal with
    | Hn : 4 <= _ -> _ -> False |- _ => solve [apply Hn; [lia|assumption]]
    end.
Qed.

End TrainingStep.

(** ** What a click keeps *)

Section ClickFacts.

Context {G : Type} `{PyRandom G}.

(** X11. A click other than [Restart] on the finished page keeps the
    participant id and the seed and never rewrites the log: the rows stay as
    they are, and only a decision in a trial phase appends one row.
    [Restart] on the finished page empties the log. *)
Theorem click_keeps_session (env : Env G) (e : Event) (s s' : SessionState) :
  on_event env e s = Ok s' ->
  (phase s = done /\ e = ClickRestart /\ logs s' = [] /\ phase s' = consent)
  \/ (participant_id s' = participant_id s /\ rng_seed s' = rng_seed s
      /\ (logs s' = logs s
          \/ (is_trial_phase (phase s) = true /\ is_decision e = true
              /\ exists row,
                  logs s' = (logs s ++ [row])%list
                  /\ row_phase row = phase s
                  /\ row_trial_in_phase row = trial_index s
                  /\ row_decision row = decision_label e))).
Proof.
  intros He.
  destruct (on_event_clicks env e s s' He)
    as [->|[(Hph & _ & Hs)|[(Hph & Hdec & Hh)|(Hph & He' & Hinit)]]].
  - right. auto.
  - destruct (start_session_step env s) as (g & g1 & Hs' & _).
    rewrite Hs' in Hs. inversion Hs; subst s'. right. cbn. auto.
  - destruct (handle_full env (decision_label e) s) as (d & g' & _ & _ & Hh' & _).
    cbv zeta in Hh'. rewrite Hh' in Hh. inversion Hh; subst s'.
    right. cbn [participant_id rng_seed logs].
    split; [reflexivity|]. split; [reflexivity|]. right.
    split; [exact Hph|]. split; [exact Hdec|].
    eexists. split; [reflexivity|]. cbn. auto.
  - destruct (init_state_step env s' Hinit) as (Hp' & _ & _ & _ & Hl).
    left. auto.
Qed.

(** X12. No click raises, with one exception: the empty-sequence and
    division-by-zero errors of [choice] and of [la / n] cannot occur, and the
    only failure is that of [int(time.time())] when [Restart] re-initialises
    the session with a clock reading that is not finite. *)
Theorem click_raises_only_on_restart
    (env : Env G) (e : Event) (s : SessionState) (x : exn) :
  on_event env e s = Raise x ->
  phase s = done /\ e = ClickRestart
  /\ int_of_float (env_time env) = Raise x
  /\ (x = ValueError \/ x = OverflowError).
Proof.
  unfold on_event. intros He.
  destruct (phase s) eqn:Hp, e; try discriminate.
  - destruct (start_session_step env s) as (g & g1 & Hs & _).
    rewrite Hs in He. discriminate.
  - destruct (handle_full env "accept" s) as (d & g' & _ & _ & Hh & _).
    cbv zeta in Hh. rewrite Hh in He. discriminate.
  - destruct (handle_full env "reject" s) as (d & g' & _ & _ & Hh & _).
    cbv zeta in Hh. rewrite Hh in He. discriminate.
  - destruct (handle_full env "accept" s) as (d & g' & _ & _ & Hh & _).
    cbv zeta in Hh. rewrite Hh in He. discriminate.
  - destruct (handle_full env "reject" s) as (d & g' & _ & _ & Hh & _).
    cbv zeta in Hh. rewrite Hh in He. discriminate.
  - destruct (handle_full env "accept" s) as (d & g' & _ & _ & Hh & _).
    cbv zeta in Hh. rewrite Hh in He. discriminate.
  - destruct (handle_full env "reject" s) as (d & g' & _ & _ & Hh & _).
    cbv zeta in Hh. rewrite Hh in He. discriminate.
  - unfold init_state in He.
    destruct (sample_mixed_gamble_inv 0 (env_uuid_gamble env) (env_unseeded env))
      as (w & l & g1 & Hs & _).
    rewrite Hs in He. cbn [rbind] in He.
    destruct (env_time env) as [b|b| |b m ex]; cbn in He; try discriminate;
      inversion He; subst; cbn; auto.
Qed.

End ClickFacts.

(** ** The invariants on concrete sessions *)

Lemma session_train0_reachable : reachable session_train0.
Proof.
  exact (reachable_run _ _ _ session_started_reachable session_train0_run).
Qed.

Lemma session_finished_run :
  run_events accept_clicks session_started = Ok session_finished.
Proof. vm_compute. reflexivity. Qed.

Lemma session_finished_reachable : reachable session_finished.
Proof.
  exact (reachable_run _ _ _ session_started_reachable session_finished_run).
Qed.


Lemma log_follows_positions_witness :
  reachable session_finished
  /\ Z.of_nat (List.length (logs session_finished)) = 105
  /\ List.length (logs session_finished) = 105%nat.
Proof.
  split; [exact session_finished_reachable|].
  destruct (log_follows_positions session_finished session_finished_reachable)
    as (Hn & _ & _ & Hd).
  split; [exact Hn|]. apply Hd. reflexivity.
Defined.

Lemma trial_index_in_phase_witness :
  reachable session_train0 /\ 0 <= trial_index session_train0 < N_TRAIN.
Proof.
  split; [exact session_train0_reachable|].
  exact (trial_index_in_phase session_train0 session_train0_reachable).
Defined.

Lemma log_rows_consistent_witness :
  reachable session_finished
  /\ Forall (fun r => row_participant_id r = participant_id session_finished
                      /\ 0 <= row_difficulty r <= 2)
            (logs session_finished).
Proof.
  split; [exact session_finished_reachable|].
  apply Forall_forall. intros r Hin.
  destruct (log_rows_consistent session_finished r session_finished_reachable Hin)
    as (Hp & _ & _ & _ & _ & _ & _ & _ & Hd & _).
  split; assumption.
Defined.


Lemma same_trial_same_gamble_witness :
  exists r1 r2,
    nth_error (logs session_finished) 3 = Some r1
    /\ nth_error (logs session_finished) 68 = Some r2
    /\ row_phase r1 = pre /\ row_phase r2 = post
    /\ row_win r1 = row_win r2 /\ row_lose r1 = row_lose r2
    /\ row_ev r1 = row_ev r2.
Proof.
  destruct (nth_error (logs session_finished) 3) as [r1|] eqn:H1;
    [|vm_compute in H1; discriminate].
  destruct (nth_error (logs session_finished) 68) as [r2|] eqn:H2;
    [|vm_compute in H2; discriminate].
  exists r1, r2. split; [reflexivity|]. split; [reflexivity|].
  assert (Hp1 : row_phase r1 = pre /\ row_trial_in_phase r1 = 3)
    by (vm_compute in H1; inversion H1; subst r1; split; reflexivity).
  assert (Hp2 : row_phase r2 = post /\ row_trial_in_phase r2 = 3)
    by (vm_compute in H2; inversion H2; subst r2; split; reflexivity).
  destruct Hp1 as [Hp1 Hi1]. destruct Hp2 as [Hp2 Hi2].
  split; [exact Hp1|]. split; [exact Hp2|].
  destruct (same_trial_same_gamble session_finished r1 r2
              session_finished_reachable
              (nth_error_In _ _ H1) (nth_error_In _ _ H2))
    as (_ & Hw & _ & Hl & Hev).
  - rewrite Hp1. discriminate.
  - rewrite Hp2. discriminate.
  - rewrite Hi1, Hi2. reflexivity.
  - auto.
Defined.

Lemma adapt_difficulty_one_step_witness :
  0 <= 1 <= 2
  /\ exists t, adapt_difficulty 1 flags_6_of_10 = Ok t /\ Z.abs (t - 1) <= 1.
Proof.
  assert (Hc : 0 <= 1 <= 2) by lia.
  split; [exact Hc|].
  destruct (adapt_difficulty_one_step 1 flags_6_of_10 Hc) as (t & Ht & _ & Habs).
  exists t. auto.
Defined.

Lemma training_step_exact_witness :
  phase session_train0 = train
  /\ exists s' row,
      handle env_a "accept" session_train0 = Ok s'
      /\ logs s' = (logs session_train0 ++ [row])%list
      /\ difficulty s' = row_difficulty row.
Proof.
  assert (Hph : phase session_train0 = train) by reflexivity.
  split; [exact Hph|].
  destruct (training_step_exact env_a "accept" session_train0 Hph)
    as (s' & row & Hh & Hl & _ & _ & _ & Hin & _).
  exists s', row. split; [exact Hh|]. split; [exact Hl|].
  apply Hin. reflexivity.
Defined.

Lemma current_gamble_drawn_witness :
  reachable session_started /\ is_trial_phase (phase session_started) = true
  /\ exists w l,
      win (current_gamble session_started) = float_of_Z w
      /\ lose (current_gamble session_started) = float_of_Z l
      /\ In w [6; 8; 10; 12; 14; 16] /\ In l [4; 6; 8; 10; 12].
Proof.
  split; [exact session_started_reachable|].
  assert (Ht : is_trial_phase (phase session_started) = true) by reflexivity.
  split; [exact Ht|].
  destruct (current_gamble_drawn session_started session_started_reachable Ht)
    as (u & g1 & w & l & _ & Hcg & _ & _ & Htier).
  exists w, l. rewrite Hcg. cbn [win lose].
  split; [reflexivity|]. split; [reflexivity|].
  apply Htier. discriminate.
Defined.

Lemma click_keeps_session_witness :
  exists s',
    on_event env_a ClickReject session_train0 = Ok s'
    /\ participant_id s' = participant_id session_train0
    /\ rng_seed s' = rng_seed session_train0.
Proof.
  destruct (on_event env_a ClickReject session_train0) as [s'|x] eqn:He;
    [|vm_compute in He; discriminate].
  exists s'. split; [reflexivity|].
  destruct (click_keeps_session env_a ClickReject session_train0 s' He)
    as [(Hc & _)|(Hp & Hseed & _)]; [vm_compute in Hc; discriminate|].
  split; assumption.
Defined.

Lemma click_raises_only_on_restart_witness :
  on_event env_nan ClickRestart session_finished = Raise ValueError
  /\ int_of_float (env_time env_nan) = Raise ValueError.
Proof.
  assert (He : on_event env_nan ClickRestart session_finished = Raise ValueError)
    by (vm_compute; reflexivity).
  split; [exact He|].
  exact (proj1 (proj2 (proj2
           (click_raises_only_on_restart env_nan ClickRestart session_finished
              ValueError He)))).
Defined.

Lemma session_train_last_run :
  run_events (repeat (env_a, ClickAccept) 24) session_train0 = Ok session_train_last.
Proof. vm_compute. reflexivity. Qed.

Lemma session_train_last_reachable : reachable session_train_last.
Proof.
  exact (reachable_run _ _ _ session_train0_reachable session_train_last_run).
Qed.

Lemma difficulty_tier_invariant_witness :
  reachable session_train_last
  /\ phase session_train_last = train
  /\ trial_index session_train_last + 1 = N_TRAIN
  /\ difficulty session_train_last = 2
  /\ List.length (last_flags session_train_last) = 10%nat
  /\ exists s',
      on_event env_a ClickAccept session_train_last = Ok s'
      /\ phase s' = post /\ trial_index s' = 0 /\ difficulty s' = 0
      /\ last_flags s' = []
      /\ exists g1,
          sample_mixed_gamble 0 (env_uuid_gamble env_a)
                              (Random (rng_seed session_train_last + 0))
          = Ok (current_gamble s', g1).
Proof.
  split; [exact session_train_last_reachable|].
  split; [reflexivity|]. split; [reflexivity|]. split; [reflexivity|].
  split; [reflexivity|].
  destruct (difficulty_tier_invariant session_train_last
              session_train_last_reachable)
    as (_ & _ & _ & Hlast & _).
  destruct (Hlast env_a ClickAccept eq_refl eq_refl eq_refl)
    as (s' & He & Hp & _ & Hi & Hd & Hf & _ & Hg & _).
  exists s'. split; [exact He|]. split; [exact Hp|]. split; [exact Hi|].
  split; [exact Hd|]. split; [exact Hf|].
  apply Hg. rewrite Hp. reflexivity.
Defined.

